(** * View-state flow and card rendering of the news pages

    A shallow embedding of the four React pages of the repository
    (HelloWorldGenerator, SourcesGenerator, NewsSearcher, NewsAggregator)
    and of their card components (ArticleCard, SourceCard).

    Conventions of the embedding.
    - A JavaScript string is a [string]; one [ascii] stands for one UTF-16
      code unit in the range U+0000..U+00FF.
    - A JavaScript value (a parsed JSON document, [null], [undefined]) is a
      [value].  A number is carried by its ECMAScript rendering
      (Number::toString), which is all the pages ever observe of it besides
      its truthiness.
    - A component's [useState] cells are the fields of a record; a setter is
      a function on that record, and a handler is the composition of the
      setters it calls, in source order.  The part of an async handler that
      runs before its first [await] and the continuation that runs once the
      request has settled are two separate functions; React applies the
      updates of each part as one batch.
    - [throw] / [try] / [catch] is the [result] monad below.
    - JSX is a [vnode] tree; [className] attributes (styling) and event
      handlers of elements are left out.  The card components take the
      typed records of the data model, an optional field being [None] when
      the property is absent. *)

From Stdlib Require Import String Ascii List Bool Arith Lia.
From Stdlib Require Import DecimalString.
Import ListNotations.
Set Warnings "-register-all".
Local Open Scope list_scope.
Local Open Scope string_scope.

(* ------------------------------------------------------------------ *)
(** ** Strings *)

(** The double-quote character, as a one-character string. *)
Definition dquote : string := String (ascii_of_nat 34) EmptyString.

Definition is_empty (s : string) : bool :=
  match s with EmptyString => true | String _ _ => false end.

(** [s.startsWith(p)] *)
Definition startsWith (s p : string) : bool := prefix p s.

(** Drop [n] code units from the front of [s]. *)
Fixpoint drop (n : nat) (s : string) : string :=
  match n, s with
  | O, _ => s
  | S _, EmptyString => EmptyString
  | S n', String _ r => drop n' r
  end.

(** [s.substring(0, n)] *)
Fixpoint take (n : nat) (s : string) : string :=
  match n, s with
  | O, _ => EmptyString
  | S _, EmptyString => EmptyString
  | S n', String c r => String c (take n' r)
  end.

(** White space of [String.prototype.trim] among the code units below
    U+0100: TAB, LF, VT, FF, CR, SPACE and NO-BREAK SPACE. *)
Definition is_white_space (c : ascii) : bool :=
  let n := nat_of_ascii c in
  ((9 <=? n)%nat && (n <=? 13)%nat) || (n =? 32)%nat || (n =? 160)%nat.

Fixpoint trimStart (s : string) : string :=
  match s with
  | EmptyString => EmptyString
  | String c r => if is_white_space c then trimStart r else s
  end.

Fixpoint trimEnd (s : string) : string :=
  match s with
  | EmptyString => EmptyString
  | String c r =>
      let r' := trimEnd r in
      if is_white_space c && is_empty r' then EmptyString else String c r'
  end.

(** [s.trim()] *)
Definition trim (s : string) : string := trimEnd (trimStart s).

(** Decimal rendering of a non-negative integer, as a template literal
    renders [response.status]. *)
Definition nat_to_string (n : nat) : string :=
  NilZero.string_of_uint (Nat.to_uint n).

(** [parts.join(sep)] on an array of strings *)
Fixpoint join (sep : string) (parts : list string) : string :=
  match parts with
  | [] => EmptyString
  | [p] => p
  | p :: rest => p ++ sep ++ join sep rest
  end.

(* ------------------------------------------------------------------ *)
(** ** JavaScript values *)

Inductive value : Type :=
  | VUndef
  | VNull
  | VBool (b : bool)
  | VNum (rendering : string)
  | VStr (s : string)
  | VArr (items : list value)
  | VObj (props : list (string * value)).

(** ToBoolean.  The falsy numbers are [0], [-0] (both rendered [0]) and
    [NaN]. *)
Definition truthy (v : value) : bool :=
  match v with
  | VUndef | VNull => false
  | VBool b => b
  | VNum r => negb (String.eqb r "0" || String.eqb r "NaN")
  | VStr s => negb (is_empty s)
  | VArr _ | VObj _ => true
  end.

(** [a || b] *)
Definition js_or (a b : value) : value := if truthy a then a else b.

Definition Array_isArray (v : value) : bool :=
  match v with VArr _ => true | _ => false end.

(** Own property lookup in an object literal. *)
Fixpoint lookup (k : string) (props : list (string * value)) : value :=
  match props with
  | [] => VUndef
  | (k', v) :: rest => if String.eqb k k' then v else lookup k rest
  end.

(* ------------------------------------------------------------------ *)
(** ** Exceptions *)

(** What a [catch] clause of the pages can receive.  Of an [Error],
    [TypeError] or [SyntaxError] only [.message] is ever read.  An axios
    error also carries [.response] (status and data, when the server
    answered) and [.request] (set once the request was sent). *)
Inductive js_error : Type :=
  | JsError (message : string)
  | AxiosError (response : option (nat * value)) (request : bool)
               (message : string).

Definition error_message (e : js_error) : string :=
  match e with
  | JsError m => m
  | AxiosError _ _ m => m
  end.

Inductive result (A : Type) : Type :=
  | Ok (a : A)
  | Throw (e : js_error).
Arguments Ok {A} a.
Arguments Throw {A} e.

Definition bind {A B : Type} (r : result A) (k : A -> result B) : result B :=
  match r with
  | Ok a => k a
  | Throw e => Throw e
  end.

Notation "'let*' x ':=' r 'in' k" := (bind r (fun x => k))
  (at level 10, x name, r at level 100, k at level 200).

(** [sequence] of the [result] monad: the steps run in order and the first
    failure aborts the rest (the elements of an array that is joined, the
    cards of a list that is rendered). *)
Fixpoint all_ok {A : Type} (rs : list (result A)) : result (list A) :=
  match rs with
  | [] => Ok []
  | r :: rest =>
      let* a := r in
      let* others := all_ok rest in
      Ok (a :: others)
  end.

(** Whether an object literal has an own property [k]. *)
Definition has_key (k : string) (props : list (string * value)) : bool :=
  existsb (fun kv => String.eqb k (fst kv)) props.

(** ToString, as the [Error] constructor applies it to its argument.  An
    array renders as its elements joined by commas, [null] and [undefined]
    elements as nothing.  A plain object renders as [[object Object]]
    through [Object.prototype.toString], unless it has an own property
    [toString]: in a parsed JSON document that property is never a
    function, no other conversion yields a primitive, and ToString throws a
    [TypeError] (the message is the engine's, here V8's wording). *)
Fixpoint ToString (v : value) : result string :=
  match v with
  | VUndef => Ok "undefined"
  | VNull => Ok "null"
  | VBool true => Ok "true"
  | VBool false => Ok "false"
  | VNum r => Ok r
  | VStr s => Ok s
  | VArr items =>
      let* parts :=
        all_ok (map (fun x => match x with
                              | VUndef | VNull => Ok EmptyString
                              | _ => ToString x
                              end) items) in
      Ok (join "," parts)
  | VObj props =>
      if has_key "toString" props
      then Throw (JsError "Cannot convert object to primitive value")
      else Ok "[object Object]"
  end.

(** [new Error(v)]: the message is [ToString v]; when that conversion
    throws, so does the constructor. *)
Definition new_Error (v : value) : result js_error :=
  let* message := ToString v in
  Ok (JsError message).

(** [v.k].  Reading a property of [null] or [undefined] throws a
    [TypeError] (the message is the engine's, here V8's wording); a
    primitive or an array has none of the property names the pages read
    ([error], [message], [answer], [articles], [sources]). *)
Definition get (v : value) (k : string) : result value :=
  match v with
  | VUndef =>
      Throw (JsError ("Cannot read properties of undefined (reading '"
                      ++ k ++ "')"))
  | VNull =>
      Throw (JsError ("Cannot read properties of null (reading '"
                      ++ k ++ "')"))
  | VObj props => Ok (lookup k props)
  | _ => Ok VUndef
  end.

(** [v?.k] *)
Definition get_opt (v : value) (k : string) : value :=
  match v with
  | VObj props => lookup k props
  | _ => VUndef
  end.

(* ------------------------------------------------------------------ *)
(** ** Building requests *)

Definition hex_digit (upper : bool) (n : nat) : ascii :=
  if (n <? 10)%nat then ascii_of_nat (48 + n)
  else ascii_of_nat ((if upper then 55 else 87) + n).

(** [%XX] for one byte *)
Definition percent_byte (n : nat) : string :=
  String "%" (String (hex_digit true (n / 16))
                (String (hex_digit true (n mod 16)) EmptyString)).

(** Percent-encoding of the UTF-8 bytes of one code unit below U+0100. *)
Definition percent_utf8 (n : nat) : string :=
  if (n <? 128)%nat then percent_byte n
  else percent_byte (192 + n / 64) ++ percent_byte (128 + n mod 64).

Definition is_alnum (n : nat) : bool :=
  ((48 <=? n) && (n <=? 57) || (65 <=? n) && (n <=? 90)
   || (97 <=? n) && (n <=? 122))%nat.

(** The characters [encodeURIComponent] leaves alone:
    [A-Z a-z 0-9 - _ . ! ~ * ' ( )]. *)
Definition uri_unreserved (n : nat) : bool :=
  is_alnum n
  || existsb (Nat.eqb n) [45; 95; 46; 33; 126; 42; 39; 40; 41].

Fixpoint encodeURIComponent (s : string) : string :=
  match s with
  | EmptyString => EmptyString
  | String c r =>
      let n := nat_of_ascii c in
      (if uri_unreserved n then String c EmptyString else percent_utf8 n)
      ++ encodeURIComponent r
  end.

(** The application/x-www-form-urlencoded byte serializer behind
    [URLSearchParams.prototype.toString]: [* - . _] and alphanumerics stay,
    a space becomes [+], the rest is percent-encoded. *)
Fixpoint form_urlencode (s : string) : string :=
  match s with
  | EmptyString => EmptyString
  | String c r =>
      let n := nat_of_ascii c in
      (if is_alnum n || existsb (Nat.eqb n) [42; 45; 46; 95]
       then String c EmptyString
       else if (n =? 32)%nat then "+"
       else percent_utf8 n)
      ++ form_urlencode r
  end.

(** [new URLSearchParams({...}).toString()] *)
Definition URLSearchParams_toString (params : list (string * string)) : string :=
  join "&" (map (fun '(k, v) => form_urlencode k ++ "=" ++ form_urlencode v)
                params).

(** QuoteJSONString of [JSON.stringify], without the surrounding quotes. *)
Fixpoint json_escape (s : string) : string :=
  match s with
  | EmptyString => EmptyString
  | String c r =>
      let n := nat_of_ascii c in
      (if (n =? 34)%nat then "\" ++ dquote
       else if (n =? 92)%nat then "\\"
       else if (n =? 8)%nat then "\b"
       else if (n =? 12)%nat then "\f"
       else if (n =? 10)%nat then "\n"
       else if (n =? 13)%nat then "\r"
       else if (n =? 9)%nat then "\t"
       else if (n <? 32)%nat then
         "\u00" ++ String (hex_digit false (n / 16))
                     (String (hex_digit false (n mod 16)) EmptyString)
       else String c EmptyString)
      ++ json_escape r
  end.

Definition json_quote (s : string) : string :=
  dquote ++ json_escape s ++ dquote.

(** [JSON.stringify] of an object literal whose property values are
    strings. *)
Definition JSON_stringify (props : list (string * string)) : string :=
  "{" ++ join "," (map (fun '(k, v) => json_quote k ++ ":" ++ json_quote v)
                       props) ++ "}".

(** An outbound [fetch] call: [fetch(url)] is a GET without headers or
    body. *)
Record Request : Type := {
  req_method : string;
  req_url : string;
  req_headers : list (string * string);
  req_body : option string
}.

Definition fetch_get (url : string) : Request :=
  {| req_method := "GET"; req_url := url; req_headers := [];
     req_body := None |}.

(* ------------------------------------------------------------------ *)
(** ** How a request settles *)

(** [await response.json()] either yields the parsed body or rejects with a
    [SyntaxError]. *)
Inductive body_read : Type :=
  | BodyJson (data : value)
  | BodyNotJson (message : string).

(** [await fetch(...)] either rejects (no response: the network failed; the
    message is the engine's) or yields a response with a status. *)
Inductive fetch_outcome : Type :=
  | FetchRejected (message : string)
  | FetchResponse (status : nat) (body : body_read).

Definition await_fetch (o : fetch_outcome) : result (nat * body_read) :=
  match o with
  | FetchRejected m => Throw (JsError m)
  | FetchResponse status body => Ok (status, body)
  end.

Definition await_json (b : body_read) : result value :=
  match b with
  | BodyJson data => Ok data
  | BodyNotJson m => Throw (JsError m)
  end.

(** [response.ok]: the status is in 200..299. *)
Definition response_ok (status : nat) : bool :=
  ((200 <=? status) && (status <=? 299))%nat.

(** How an [axios.get] call ends: the server answered, or the request was
    sent and nothing came back, or the request could not be set up. *)
Inductive axios_outcome : Type :=
  | AxiosAnswered (status : nat) (data : value)
  | AxiosNoResponse (message : string)
  | AxiosSetupFailed (message : string).

(** [await axios.get(...)]: axios resolves on a 2xx status and rejects
    otherwise, with [error.response] set when the server answered and
    [error.request] set when the request was sent. *)
Definition await_axios (o : axios_outcome) : result (nat * value) :=
  match o with
  | AxiosAnswered status data =>
      if response_ok status then Ok (status, data)
      else Throw (AxiosError (Some (status, data)) true
                    ("Request failed with status code "
                     ++ nat_to_string status))
  | AxiosNoResponse m => Throw (AxiosError None true m)
  | AxiosSetupFailed m => Throw (AxiosError None false m)
  end.

(* ------------------------------------------------------------------ *)
(** ** The view state of the specification *)

(** The tagged union of the data model. *)
Inductive ViewState : Type :=
  | Idle
  | Loading
  | Success (payload : value)
  | Error (message : value).

(** The variant a (loading flag, payload, error) triple stands for: the
    one of the three that is active, [Idle] when none is, and [None] when
    more than one is.  A payload or an error is active when the page would
    display it, that is, when it is truthy. *)
Definition classify (loading : bool) (payload error : value)
  : option ViewState :=
  match loading, truthy payload, truthy error with
  | false, false, false => Some Idle
  | true, false, false => Some Loading
  | false, true, false => Some (Success payload)
  | false, false, true => Some (Error error)
  | _, _, _ => None
  end.

(* ------------------------------------------------------------------ *)
(** ** Rendered output *)

(** A rendered element tree.  Only the attributes that carry data ([href],
    [src], [alt], [target], [rel], [role]) are kept. *)
Inductive vnode : Type :=
  | Text (s : string)
  | Elem (tag : string) (attrs : list (string * string))
         (children : list vnode).

(** The [href] of every anchor of a tree, in document order; [None] for an
    anchor without one. *)
Fixpoint anchors (n : vnode) : list (option string) :=
  match n with
  | Text _ => []
  | Elem tag attrs children =>
      (if String.eqb tag "a"
       then [option_map snd
               (find (fun kv => String.eqb (fst kv) "href") attrs)]
       else [])
      ++ flat_map anchors children
  end%list.

(** The text nodes of a tree, in document order. *)
Fixpoint texts (n : vnode) : list string :=
  match n with
  | Text s => [s]
  | Elem _ _ children => flat_map texts children
  end.

Definition has_text (s : string) (n : vnode) : bool :=
  existsb (String.eqb s) (texts n).

(** An optional string as a child: [undefined] and the empty string leave
    no text behind. *)
Definition child (o : option string) : list vnode :=
  match o with
  | Some s => if is_empty s then [] else [Text s]
  | None => []
  end.

(** An optional string as an attribute: [undefined] leaves the attribute
    out. *)
Definition attr (k : string) (o : option string) : list (string * string) :=
  match o with
  | Some s => [(k, s)]
  | None => []
  end.

(** [o || d] for an optional string [o]: [undefined] and the empty string
    are falsy. *)
Definition or_default (o : option string) (d : string) : string :=
  match o with
  | Some s => if is_empty s then d else s
  | None => d
  end.

(** What the browser supplies: whether [new URL(s)] succeeds, and
    [new Date(s).toLocaleDateString()]. *)
Class Platform : Type := {
  URL_parses : string -> bool;
  toLocaleDateString : string -> string
}.

(* ------------------------------------------------------------------ *)
(** ** The records of the data model *)

(** An optional field is [None] when the property is absent from the
    object. *)
Module Article.
Record t : Type := {
  title : string;
  summary : option string;
  image_url : option string;
  category : string;
  publish_date : option string;
  authors : option (list string);
  source_domain : string;
  url : string
}.
End Article.

Module Source.
Record t : Type := {
  name : option string;
  description : option string;
  url : option string
}.
End Source.

(* ------------------------------------------------------------------ *)
(** ** NewsSearcher (website article search, GET /search) *)

Module NewsSearcher.

Definition formatDate {P : Platform} (dateString : option string) : string :=
  match dateString with
  | Some s => if is_empty s then "Date not available" else toLocaleDateString s
  | None => "Date not available"
  end.

(** The card of this page reads [article.authors.length] unguarded. *)
Definition ArticleCard {P : Platform} (article : Article.t) : result vnode :=
  let* authors_line :=
    match Article.authors article with
    | None =>
        Throw (JsError "Cannot read properties of undefined (reading 'length')")
    | Some names =>
        Ok (if (0 <? length names)%nat
            then [Elem "p" [] (Text "Authors: " :: child (Some (join ", " names)))]
            else [])
    end in
  Ok (Elem "div" []
        ([Elem "h3" [] (child (Some (Article.title article)));
          Elem "div" [] []]
         ++ match Article.image_url article with
            | Some src =>
                if is_empty src then []
                else [Elem "img" [("src", src); ("alt", Article.title article)] []]
            | None => []
            end
         ++ [Elem "p" []
               [Text (or_default (Article.summary article) "No summary available")];
             Elem "div" []
               [Elem "div" []
                  ([Elem "p" []
                      (Text "Category: " :: child (Some (Article.category article)));
                    Elem "p" []
                      [Text "Published: ";
                       Text (formatDate (Article.publish_date article))]]
                   ++ authors_line
                   ++ [Elem "p" []
                         (Text "Source: "
                          :: child (Some (Article.source_domain article)))]);
                Elem "a" [("href", Article.url article); ("target", "_blank");
                          ("rel", "noopener noreferrer")]
                  [Text "Read Article"]]])%list).

Record FormData : Type := { url : string; query : string; method : string }.

Record State : Type := {
  articles : value;
  isLoading : bool;
  error : value;
  formData : FormData
}.

Definition initial : State :=
  {| articles := VNull; isLoading := false; error := VNull;
     formData := {| url := EmptyString; query := EmptyString;
                    method := "combined" |} |}.

Definition setArticles (v : value) (s : State) : State :=
  {| articles := v; isLoading := isLoading s; error := error s;
     formData := formData s |}.

Definition setIsLoading (b : bool) (s : State) : State :=
  {| articles := articles s; isLoading := b; error := error s;
     formData := formData s |}.

Definition setError (v : value) (s : State) : State :=
  {| articles := articles s; isLoading := isLoading s; error := v;
     formData := formData s |}.

Definition setFormData (f : FormData -> FormData) (s : State) : State :=
  {| articles := articles s; isLoading := isLoading s; error := error s;
     formData := f (formData s) |}.

(** [{...prev, [name]: value}]; [name] is the name of one of the three
    controls of the form. *)
Definition set_field (name v : string) (prev : FormData) : FormData :=
  if String.eqb name "url" then
    {| url := v; query := query prev; method := method prev |}
  else if String.eqb name "query" then
    {| url := url prev; query := v; method := method prev |}
  else if String.eqb name "method" then
    {| url := url prev; query := query prev; method := v |}
  else prev.

Definition handleInputChange (name v : string) (s : State) : State :=
  let s :=
    if String.eqb name "url" && negb (is_empty v)
       && negb (startsWith v "http")
    then
      setFormData
        (set_field name
           ("https://" ++ (if startsWith v "www." then EmptyString else "www.")
            ++ v)) s
    else setFormData (set_field name v) s in
  setError VNull s.

(** [handleSubmit] up to its first [await]: the three resets, then the
    request. *)
Definition handleSubmit_begin (s : State) : State * Request :=
  let s' := setError VNull (setArticles VNull (setIsLoading true s)) in
  let searchParams :=
    URLSearchParams_toString
      [("url", url (formData s)); ("query", query (formData s));
       ("method", method (formData s))] in
  (s', fetch_get ("http://localhost:8000/search?" ++ searchParams)).

(** The rest of the [try] block: the state update it ends with, or what it
    throws. *)
Definition handleSubmit_try (o : fetch_outcome) : result (State -> State) :=
  let* response := await_fetch o in
  let* data := await_json (snd response) in
  if negb (response_ok (fst response)) then
    let* e := get data "error" in
    let* thrown :=
      new_Error
        (js_or e (VStr ("Server error (" ++ nat_to_string (fst response)
                        ++ "). Please try again."))) in
    Throw thrown
  else
    let* a := get data "articles" in
    if truthy a && Array_isArray a then Ok (setArticles data)
    else
      let* m := get data "message" in
      if truthy m then Ok (setError m)
      else Throw (JsError "Invalid response format from server").

Definition handleSubmit_catch (e : js_error) (s : State) : State :=
  setArticles VNull
    (setError (js_or (VStr (error_message e))
                 (VStr "Failed to search articles. Please try again.")) s).

(** [handleSubmit] from the point where the request has settled: the
    [try] block, its [catch], and the [finally]. *)
Definition handleSubmit_settle (o : fetch_outcome) (s : State) : State :=
  setIsLoading false
    (match handleSubmit_try o with
     | Ok update => update s
     | Throw e => handleSubmit_catch e s
     end).

(** One whole submission with nothing in between: the request sent, the
    state shown while it is pending, the state once it has settled. *)
Definition handleSubmit (s : State) (o : fetch_outcome)
  : Request * State * State :=
  let '(s1, request) := handleSubmit_begin s in
  (request, s1, handleSubmit_settle o s1).

Definition view (s : State) : option ViewState :=
  classify (isLoading s) (articles s) (error s).

(** The page as the user drives it.  The controls carry
    [disabled={isLoading}], and the [url] and [query] inputs carry
    [required]: while a request is pending nothing can be typed or
    submitted, and the browser does not fire the submit event when a
    required input is empty (it shows its own message and the page state
    stays as it is). *)
Record Page : Type := {
  state : State;
  pending : nat;
  sent : list Request
}.

Definition start : Page := {| state := initial; pending := 0; sent := [] |}.

Inductive Event : Type :=
  | Change (name v : string)
  | SubmitForm
  | Settled (o : fetch_outcome).

Definition required_filled (f : FormData) : bool :=
  negb (is_empty (url f)) && negb (is_empty (query f)).

Definition on_event (e : Event) (p : Page) : option Page :=
  match e with
  | Change name v =>
      if isLoading (state p) then None
      else Some {| state := handleInputChange name v (state p);
                   pending := pending p; sent := sent p |}
  | SubmitForm =>
      if isLoading (state p) then None
      else if required_filled (formData (state p)) then
        let '(s', request) := handleSubmit_begin (state p) in
        Some {| state := s'; pending := S (pending p);
                sent := (sent p ++ [request])%list |}
      else Some p
  | Settled o =>
      match pending p with
      | O => None
      | S n =>
          Some {| state := handleSubmit_settle o (state p); pending := n;
                  sent := sent p |}
      end
  end.

Fixpoint run (es : list Event) (p : Page) : option Page :=
  match es with
  | [] => Some p
  | e :: rest =>
      match on_event e p with
      | Some p' => run rest p'
      | None => None
      end
  end.

Definition reachable (p : Page) : Prop := exists es, run es start = Some p.

(** The grid of the results area: one card per article, or a placeholder
    when the list is empty. *)
Definition articles_grid {P : Platform} (items : list Article.t)
  : result vnode :=
  if (0 <? length items)%nat then
    let* cards := all_ok (map ArticleCard items) in
    Ok (Elem "div" [] cards)
  else Ok (Elem "div" [] [Elem "div" [] [Text "No articles found"]]).

End NewsSearcher.

(* ------------------------------------------------------------------ *)
(** ** SourcesGenerator (POST /sources) *)

Module SourcesGenerator.

(** [new URL(url)] applies ToString to its argument first, so a missing
    url is parsed as the text [undefined]. *)
Definition isValidUrl {P : Platform} (u : option string) : bool :=
  URL_parses (match u with Some s => s | None => "undefined" end).

(** Strip a leading [http://] or [https://] and one trailing slash, then
    cut to 40 code units.  On a missing url [url.replace] throws, the
    [catch] returns the url as it came. *)
Definition formatUrl (u : option string) : option string :=
  match u with
  | None => None
  | Some s =>
      let s1 := if startsWith s "https://" then drop 8 s
                else if startsWith s "http://" then drop 7 s
                else s in
      let formatted :=
        match rev (list_ascii_of_string s1) with
        | "/"%char :: r => string_of_list_ascii (rev r)
        | _ => s1
        end in
      Some (if (40 <? String.length formatted)%nat
            then take 40 formatted ++ "..."
            else formatted)
  end.

Definition SourceCard {P : Platform} (source : Source.t) : vnode :=
  Elem "div" []
    [Elem "h3" [] [Text (or_default (Source.name source) "Unnamed Source")];
     Elem "div" [] [];
     Elem "p" []
       [Text (or_default (Source.description source)
                "No description available")];
     Elem "div" []
       (if isValidUrl (Source.url source)
        then [Elem "p" [] (child (formatUrl (Source.url source)));
              Elem "a" (attr "href" (Source.url source)
                        ++ [("target", "_blank");
                            ("rel", "noopener noreferrer")])%list
                [Text "Visit Source"]]
        else [Elem "p" [] [Text "Invalid or missing URL"]])].

Record FormData : Type := { language : string; topic : string }.

Record State : Type := {
  sourcesData : value;
  isLoading : bool;
  error : value;
  formData : FormData
}.

Definition initial : State :=
  {| sourcesData := VNull; isLoading := false; error := VNull;
     formData := {| language := "en"; topic := EmptyString |} |}.

Definition setSourcesData (v : value) (s : State) : State :=
  {| sourcesData := v; isLoading := isLoading s; error := error s;
     formData := formData s |}.

Definition setIsLoading (b : bool) (s : State) : State :=
  {| sourcesData := sourcesData s; isLoading := b; error := error s;
     formData := formData s |}.

Definition setError (v : value) (s : State) : State :=
  {| sourcesData := sourcesData s; isLoading := isLoading s; error := v;
     formData := formData s |}.

Definition setFormData (f : FormData -> FormData) (s : State) : State :=
  {| sourcesData := sourcesData s; isLoading := isLoading s;
     error := error s; formData := f (formData s) |}.

Definition set_field (name v : string) (prev : FormData) : FormData :=
  if String.eqb name "language" then {| language := v; topic := topic prev |}
  else if String.eqb name "topic" then {| language := language prev; topic := v |}
  else prev.

Definition handleInputChange (name v : string) (s : State) : State :=
  setError VNull (setFormData (set_field name v) s).

(** [formData.topic || d] *)
Definition topic_or (f : FormData) (d : string) : string :=
  if is_empty (topic f) then d else topic f.

Definition handleSubmit_begin (s : State) : State * Request :=
  let s' := setError VNull (setSourcesData VNull (setIsLoading true s)) in
  (s', {| req_method := "POST";
          req_url := "http://localhost:8002/sources";
          req_headers := [("Content-Type", "application/json")];
          req_body :=
            Some (JSON_stringify
                    [("question",
                      topic_or (formData s) "Show me general news sources")])
       |}).

(** The rest of the [try] block.  [submitted] is the form data the handler
    closed over when the form was submitted, [now] is
    [new Date().toISOString()] at the time the response is handled. *)
Definition handleSubmit_try (submitted : FormData) (now : string)
    (o : fetch_outcome) : result (State -> State) :=
  let* response := await_fetch o in
  let* data := await_json (snd response) in
  if negb (response_ok (fst response)) then
    let* e := get data "error" in
    let* thrown :=
      new_Error
        (js_or e (VStr ("Server error (" ++ nat_to_string (fst response)
                        ++ "). Please try again."))) in
    Throw thrown
  else
    let* answer := get data "answer" in
    if negb (truthy answer) then
      Throw (JsError "No sources found. Please try a different topic.")
    else
      let* sources := get answer "sources" in
      if negb (truthy sources) then
        Throw (JsError "No sources found. Please try a different topic.")
      else
        match sources with
        | VArr (_ :: _) =>
            Ok (setSourcesData
                  (VObj [("topic", VStr (topic_or submitted "General News"));
                         ("created_at", VStr now);
                         ("sources", sources)]))
        | _ =>
            Throw (JsError
                     "No sources available for this topic. Please try a different search.")
        end.

Definition handleSubmit_catch (e : js_error) (s : State) : State :=
  setSourcesData VNull
    (setError (js_or (VStr (error_message e))
                 (VStr "Failed to generate sources. Please try again.")) s).

Definition handleSubmit_settle (submitted : FormData) (now : string)
    (o : fetch_outcome) (s : State) : State :=
  setIsLoading false
    (match handleSubmit_try submitted now o with
     | Ok update => update s
     | Throw e => handleSubmit_catch e s
     end).

Definition handleSubmit (s : State) (now : string) (o : fetch_outcome)
  : Request * State * State :=
  let '(s1, request) := handleSubmit_begin s in
  (request, s1, handleSubmit_settle (formData s) now o s1).

Definition view (s : State) : option ViewState :=
  classify (isLoading s) (sourcesData s) (error s).

(** The page as the user drives it: every control carries
    [disabled={isLoading}]; no input is [required]. *)
Record Page : Type := {
  state : State;
  pending : option FormData;
  sent : list Request
}.

Definition start : Page :=
  {| state := initial; pending := None; sent := [] |}.

Inductive Event : Type :=
  | Change (name v : string)
  | SubmitForm
  | Settled (now : string) (o : fetch_outcome).

Definition on_event (e : Event) (p : Page) : option Page :=
  match e with
  | Change name v =>
      if isLoading (state p) then None
      else Some {| state := handleInputChange name v (state p);
                   pending := pending p; sent := sent p |}
  | SubmitForm =>
      if isLoading (state p) then None
      else
        let '(s', request) := handleSubmit_begin (state p) in
        Some {| state := s'; pending := Some (formData (state p));
                sent := (sent p ++ [request])%list |}
  | Settled now o =>
      match pending p with
      | None => None
      | Some submitted =>
          Some {| state := handleSubmit_settle submitted now o (state p);
                  pending := None; sent := sent p |}
      end
  end.

Fixpoint run (es : list Event) (p : Page) : option Page :=
  match es with
  | [] => Some p
  | e :: rest =>
      match on_event e p with
      | Some p' => run rest p'
      | None => None
      end
  end.

Definition reachable (p : Page) : Prop := exists es, run es start = Some p.

(** The grid of the results area. *)
Definition sources_grid {P : Platform} (items : list Source.t) : vnode :=
  if (0 <? length items)%nat then Elem "div" [] (map SourceCard items)
  else Elem "div" [] [Elem "div" [] [Text "No sources available"]].

End SourcesGenerator.

(* ------------------------------------------------------------------ *)
(** ** HelloWorldGenerator (GET /ask, through axios) *)

Module HelloWorldGenerator.

(** [axios.get(url, { params })] *)
Record AxiosGet : Type := {
  get_url : string;
  get_params : list (string * string)
}.

Record State : Type := {
  question : string;
  answer : value;
  isLoading : bool;
  error : value
}.

Definition initial : State :=
  {| question := EmptyString; answer := VStr EmptyString;
     isLoading := false; error := VNull |}.

Definition setQuestion (q : string) (s : State) : State :=
  {| question := q; answer := answer s; isLoading := isLoading s;
     error := error s |}.

Definition setAnswer (v : value) (s : State) : State :=
  {| question := question s; answer := v; isLoading := isLoading s;
     error := error s |}.

Definition setIsLoading (b : bool) (s : State) : State :=
  {| question := question s; answer := answer s; isLoading := b;
     error := error s |}.

Definition setError (v : value) (s : State) : State :=
  {| question := question s; answer := answer s; isLoading := isLoading s;
     error := v |}.

Definition handleInputChange (v : string) (s : State) : State :=
  setError VNull (setQuestion v s).

(** [handleSubmit] up to its first [await].  A blank question ends the
    handler here: an error is set, nothing else is touched, and no request
    is made. *)
Definition handleSubmit_begin (s : State) : State * option AxiosGet :=
  if is_empty (trim (question s)) then
    (setError (VStr "Please enter a question") s, None)
  else
    (setError VNull (setAnswer (VStr EmptyString) (setIsLoading true s)),
     Some {| get_url := "http://localhost:8002/ask";
             get_params := [("question", trim (question s))] |}).

Definition handleSubmit_try (o : axios_outcome) : result (State -> State) :=
  let* response := await_axios o in
  let data := snd response in
  if truthy data then
    let* a := get data "answer" in
    if truthy a then Ok (setAnswer a)
    else Throw (JsError "Invalid response format from server")
  else Throw (JsError "Invalid response format from server").

Definition error_response (e : js_error) : option (nat * value) :=
  match e with
  | AxiosError response _ _ => response
  | JsError _ => None
  end.

Definition error_request (e : js_error) : bool :=
  match e with
  | AxiosError _ request _ => request
  | JsError _ => false
  end.

Definition handleSubmit_catch (e : js_error) (s : State) : State :=
  match error_response e with
  | Some (status, data) =>
      let serverError :=
        js_or (get_opt data "error")
          (VStr ("Server error: " ++ nat_to_string status)) in
      setError serverError s
  | None =>
      if error_request e then
        setError
          (VStr "No response from server. Please check if the backend is running.")
          s
      else
        setError (js_or (VStr (error_message e))
                    (VStr "Failed to get an answer. Please try again.")) s
  end.

Definition handleSubmit_settle (o : axios_outcome) (s : State) : State :=
  setIsLoading false
    (match handleSubmit_try o with
     | Ok update => update s
     | Throw e => handleSubmit_catch e s
     end).

(** One whole submission: the request sent (if any), the state right after
    the submit event, and the state once the request, if one was made, has
    settled. *)
Definition handleSubmit (s : State) (o : axios_outcome)
  : option AxiosGet * State * State :=
  match handleSubmit_begin s with
  | (s1, Some request) => (Some request, s1, handleSubmit_settle o s1)
  | (s1, None) => (None, s1, s1)
  end.

Definition view (s : State) : option ViewState :=
  classify (isLoading s) (answer s) (error s).

(** The page as the user drives it: the input carries
    [disabled={isLoading}], the button [disabled={isLoading || !question}]. *)
Record Page : Type := {
  state : State;
  pending : nat;
  sent : list AxiosGet
}.

Definition start : Page := {| state := initial; pending := 0; sent := [] |}.

Inductive Event : Type :=
  | Change (v : string)
  | SubmitForm
  | Settled (o : axios_outcome).

Definition on_event (e : Event) (p : Page) : option Page :=
  match e with
  | Change v =>
      if isLoading (state p) then None
      else Some {| state := handleInputChange v (state p);
                   pending := pending p; sent := sent p |}
  | SubmitForm =>
      if isLoading (state p) || is_empty (question (state p)) then None
      else
        match handleSubmit_begin (state p) with
        | (s', Some request) =>
            Some {| state := s'; pending := S (pending p);
                    sent := (sent p ++ [request])%list |}
        | (s', None) =>
            Some {| state := s'; pending := pending p; sent := sent p |}
        end
  | Settled o =>
      match pending p with
      | O => None
      | S n =>
          Some {| state := handleSubmit_settle o (state p); pending := n;
                  sent := sent p |}
      end
  end.

Fixpoint run (es : list Event) (p : Page) : option Page :=
  match es with
  | [] => Some p
  | e :: rest =>
      match on_event e p with
      | Some p' => run rest p'
      | None => None
      end
  end.

Definition reachable (p : Page) : Prop := exists es, run es start = Some p.

End HelloWorldGenerator.

(* ------------------------------------------------------------------ *)
(** ** NewsAggregator (GET /coordinate) *)

Module NewsAggregator.

Definition isValidUrl {P : Platform} (u : option string) : bool :=
  URL_parses (match u with Some s => s | None => "undefined" end).

Definition formatUrl (u : option string) : option string :=
  match u with
  | None => None
  | Some s =>
      let s1 := if startsWith s "https://" then drop 8 s
                else if startsWith s "http://" then drop 7 s
                else s in
      let formatted :=
        match rev (list_ascii_of_string s1) with
        | "/"%char :: r => string_of_list_ascii (rev r)
        | _ => s1
        end in
      Some (if (40 <? String.length formatted)%nat
            then take 40 formatted ++ "..."
            else formatted)
  end.

Definition SourceCard {P : Platform} (source : Source.t) : vnode :=
  Elem "div" []
    [Elem "h3" [] [Text (or_default (Source.name source) "Unnamed Source")];
     Elem "div" [] [];
     Elem "p" []
       [Text (or_default (Source.description source)
                "No description available")];
     Elem "div" []
       (if isValidUrl (Source.url source)
        then [Elem "p" [] (child (formatUrl (Source.url source)));
              Elem "a" (attr "href" (Source.url source)
                        ++ [("target", "_blank");
                            ("rel", "noopener noreferrer")])%list
                [Text "Visit Source"]]
        else [Elem "p" [] [Text "Invalid or missing URL"]])].

Definition formatDate {P : Platform} (dateString : option string) : string :=
  match dateString with
  | Some s => if is_empty s then "Date not available" else toLocaleDateString s
  | None => "Date not available"
  end.

(** The card of this page reads [article.authors?.length]: a missing list
    of authors leaves the line out. *)
Definition ArticleCard {P : Platform} (article : Article.t) : vnode :=
  let authors_line :=
    match Article.authors article with
    | None => []
    | Some names =>
        if (0 <? length names)%nat
        then [Elem "p" [] (Text "Authors: " :: child (Some (join ", " names)))]
        else []
    end in
  Elem "div" []
    ([Elem "h3" [] (child (Some (Article.title article)));
      Elem "div" [] []]
     ++ match Article.image_url article with
        | Some src =>
            if is_empty src then []
            else [Elem "img" [("src", src); ("alt", Article.title article)] []]
        | None => []
        end
     ++ [Elem "p" []
           [Text (or_default (Article.summary article) "No summary available")];
         Elem "div" []
           [Elem "div" []
              ([Elem "p" []
                  (Text "Category: " :: child (Some (Article.category article)));
                Elem "p" []
                  [Text "Published: ";
                   Text (formatDate (Article.publish_date article))]]
               ++ authors_line
               ++ [Elem "p" []
                     (Text "Source: "
                      :: child (Some (Article.source_domain article)))]);
            Elem "a" [("href", Article.url article); ("target", "_blank");
                      ("rel", "noopener noreferrer")]
              [Text "Read Article"]]])%list.

Record FormData : Type := { language : string; topic : string }.

Record State : Type := {
  data : value;
  isLoading : bool;
  error : value;
  formData : FormData
}.

Definition initial : State :=
  {| data := VNull; isLoading := false; error := VNull;
     formData := {| language := "en"; topic := EmptyString |} |}.

Definition setData (v : value) (s : State) : State :=
  {| data := v; isLoading := isLoading s; error := error s;
     formData := formData s |}.

Definition setIsLoading (b : bool) (s : State) : State :=
  {| data := data s; isLoading := b; error := error s;
     formData := formData s |}.

Definition setError (v : value) (s : State) : State :=
  {| data := data s; isLoading := isLoading s; error := v;
     formData := formData s |}.

Definition setFormData (f : FormData -> FormData) (s : State) : State :=
  {| data := data s; isLoading := isLoading s; error := error s;
     formData := f (formData s) |}.

Definition set_field (name v : string) (prev : FormData) : FormData :=
  if String.eqb name "language" then {| language := v; topic := topic prev |}
  else if String.eqb name "topic" then {| language := language prev; topic := v |}
  else prev.

Definition handleInputChange (name v : string) (s : State) : State :=
  setError VNull (setFormData (set_field name v) s).

Definition handleSubmit_begin (s : State) : State * Request :=
  let s' := setError VNull (setData VNull (setIsLoading true s)) in
  (s', fetch_get ("http://localhost:8003/coordinate?question="
                  ++ encodeURIComponent (topic (formData s)))).

Definition handleSubmit_try (o : fetch_outcome) : result (State -> State) :=
  let* response := await_fetch o in
  let* result := await_json (snd response) in
  if negb (response_ok (fst response)) then
    let* e := get result "error" in
    let* thrown :=
      new_Error
        (js_or e (VStr ("Server error (" ++ nat_to_string (fst response)
                        ++ ")"))) in
    Throw thrown
  else Ok (setData result).

Definition handleSubmit_catch (e : js_error) (s : State) : State :=
  setError (js_or (VStr (error_message e)) (VStr "Failed to fetch data")) s.

Definition handleSubmit_settle (o : fetch_outcome) (s : State) : State :=
  setIsLoading false
    (match handleSubmit_try o with
     | Ok update => update s
     | Throw e => handleSubmit_catch e s
     end).

Definition handleSubmit (s : State) (o : fetch_outcome)
  : Request * State * State :=
  let '(s1, request) := handleSubmit_begin s in
  (request, s1, handleSubmit_settle o s1).

Definition view (s : State) : option ViewState :=
  classify (isLoading s) (data s) (error s).

(** The page as the user drives it: every control carries
    [disabled={isLoading}], and the [topic] input carries [required]. *)
Record Page : Type := {
  state : State;
  pending : nat;
  sent : list Request
}.

Definition start : Page := {| state := initial; pending := 0; sent := [] |}.

Inductive Event : Type :=
  | Change (name v : string)
  | SubmitForm
  | Settled (o : fetch_outcome).

Definition required_filled (f : FormData) : bool := negb (is_empty (topic f)).

Definition on_event (e : Event) (p : Page) : option Page :=
  match e with
  | Change name v =>
      if isLoading (state p) then None
      else Some {| state := handleInputChange name v (state p);
                   pending := pending p; sent := sent p |}
  | SubmitForm =>
      if isLoading (state p) then None
      else if required_filled (formData (state p)) then
        let '(s', request) := handleSubmit_begin (state p) in
        Some {| state := s'; pending := S (pending p);
                sent := (sent p ++ [request])%list |}
      else Some p
  | Settled o =>
      match pending p with
      | O => None
      | S n =>
          Some {| state := handleSubmit_settle o (state p); pending := n;
                  sent := sent p |}
      end
  end.

(** The two grids of the results area: [data.articles.map(...)] and
    [data.sources.map(...)]. *)
Definition articles_grid {P : Platform} (items : list Article.t) : vnode :=
  Elem "div" [] (map ArticleCard items).

Definition sources_grid {P : Platform} (items : list Source.t) : vnode :=
  Elem "div" [] (map SourceCard items).

End NewsAggregator.

(* ================================================================== *)
(** * Properties *)

(** [Success] and [Error] are the two settled variants. *)
Definition settled (v : ViewState) : bool :=
  match v with
  | Success _ | Error _ => true
  | Idle | Loading => false
  end.

(** The JSON text of the object whose [question] is the default question of
    SourcesGenerator. *)
Definition general_question_body : string :=
  "{" ++ dquote ++ "question" ++ dquote ++ ":"
  ++ dquote ++ "Show me general news sources" ++ dquote ++ "}".

(** One card per entry, in the order of the entries: there are as many
    cards as entries, and the card at each position is the card of the
    entry at that position. *)
Definition one_per_entry {A : Type} (card_of : A -> vnode -> Prop)
    (items : list A) (cards : list vnode) : Prop :=
  length cards = length items /\
  forall (i : nat) (a : A),
    nth_error items i = Some a ->
    exists c, nth_error cards i = Some c /\ card_of a c.

(** A stand-in for the browser, for the examples: a url parses when it
    starts with [http://] or [https://], and a date prints as written. *)
Definition sample_platform : Platform :=
  {| URL_parses := fun s => startsWith s "http://" || startsWith s "https://";
     toLocaleDateString := fun s => s |}.

(** An article with none of its optional fields but, possibly, its
    authors. *)
Definition bare_article (authors : option (list string)) : Article.t :=
  {| Article.title := "Title"; Article.summary := None;
     Article.image_url := None; Article.category := "world";
     Article.publish_date := None; Article.authors := authors;
     Article.source_domain := "example.org";
     Article.url := "https://example.org/a" |}.

(** The shape of a view state in which at most one of the three is active:
    while loading, the payload and the error are cleared; a payload is
    either cleared or displayed, and then without an error; an error is
    either cleared or displayed. *)
Definition one_at_a_time (loading : bool) (payload error cleared : value)
  : Prop :=
  (loading = true -> payload = cleared /\ error = VNull) /\
  (payload = cleared \/ truthy payload = true /\ error = VNull) /\
  (error = VNull \/ truthy error = true).

(** What holds of NewsSearcher at every moment: at most one request is
    out, and it is out exactly while [isLoading] is set. *)
Definition NewsSearcher_invariant (p : NewsSearcher.Page) : Prop :=
  let s := NewsSearcher.state p in
  NewsSearcher.pending p = (if NewsSearcher.isLoading s then 1 else 0) /\
  one_at_a_time (NewsSearcher.isLoading s) (NewsSearcher.articles s)
    (NewsSearcher.error s) VNull.

Definition SourcesGenerator_invariant (p : SourcesGenerator.Page) : Prop :=
  let s := SourcesGenerator.state p in
  match SourcesGenerator.pending p with Some _ => 1 | None => 0 end
  = (if SourcesGenerator.isLoading s then 1 else 0) /\
  one_at_a_time (SourcesGenerator.isLoading s) (SourcesGenerator.sourcesData s)
    (SourcesGenerator.error s) VNull.

(** HelloWorldGenerator keeps less: beside an answer there can be an error,
    but only the one the handler sets for a blank question, and not while
    loading. *)
Definition HelloWorldGenerator_invariant (p : HelloWorldGenerator.Page)
  : Prop :=
  let s := HelloWorldGenerator.state p in
  HelloWorldGenerator.pending p
  = (if HelloWorldGenerator.isLoading s then 1 else 0) /\
  (HelloWorldGenerator.isLoading s = true ->
   HelloWorldGenerator.answer s = VStr EmptyString /\
   HelloWorldGenerator.error s = VNull) /\
  (HelloWorldGenerator.error s = VNull \/
   truthy (HelloWorldGenerator.error s) = true) /\
  (HelloWorldGenerator.answer s = VStr EmptyString \/
   truthy (HelloWorldGenerator.answer s) = true) /\
  (truthy (HelloWorldGenerator.answer s) = true ->
   HelloWorldGenerator.error s = VNull \/
   HelloWorldGenerator.error s = VStr "Please enter a question").

(** A search on NewsSearcher that came back with one article. *)
Definition searched_page : NewsSearcher.Page :=
  Eval vm_compute in
    match NewsSearcher.run
            [NewsSearcher.Change "url" "cnn.com";
             NewsSearcher.Change "query" "rain";
             NewsSearcher.SubmitForm;
             NewsSearcher.Settled
               (FetchResponse 200
                  (BodyJson (VObj [("articles", VArr [VObj []]);
                                   ("count", VNum "1")])))]
            NewsSearcher.start with
    | Some p => p
    | None => NewsSearcher.start
    end.

(** Evaluate a handler on a partly known input: unfold the operators of
    the value language and rewrite with what is known, until nothing
    moves. *)
Ltac evaluate_with H :=
  repeat (progress (simpl; unfold js_or, new_Error, classify; simpl;
                    rewrite ?H)).

(** Membership in the text of a card, one list at a time. *)
Ltac find_text :=
  repeat (rewrite ?flat_map_app, ?in_app_iff; simpl);
  intuition auto.

(* ------------------------------------------------------------------ *)
(** ** Further definitions, for the properties beyond the claims *)

(** A string that does not begin with white space. *)
Definition starts_clean (s : string) : bool :=
  match s with
  | EmptyString => true
  | String c _ => negb (is_white_space c)
  end.

(** Every code unit of [s] passes [f]. *)
Fixpoint all_chars (f : ascii -> bool) (s : string) : bool :=
  match s with
  | EmptyString => true
  | String c r => f c && all_chars f r
  end.

(** How often the code unit [c] occurs in [s]. *)
Fixpoint count_char (c : ascii) (s : string) : nat :=
  match s with
  | EmptyString => 0
  | String d r => (if Ascii.eqb c d then 1 else 0) + count_char c r
  end.

(** NewsAggregator driven by a sequence of events, as the other pages. *)
Fixpoint NewsAggregator_run (es : list NewsAggregator.Event)
    (p : NewsAggregator.Page) : option NewsAggregator.Page :=
  match es with
  | [] => Some p
  | e :: rest =>
      match NewsAggregator.on_event e p with
      | Some p' => NewsAggregator_run rest p'
      | None => None
      end
  end.

Definition NewsAggregator_reachable (p : NewsAggregator.Page) : Prop :=
  exists es, NewsAggregator_run es NewsAggregator.start = Some p.

(** What holds of NewsAggregator at every moment: a request is out exactly
    while [isLoading] is set, loading goes with neither data nor error, and
    an error goes without data. *)
Definition NewsAggregator_invariant (p : NewsAggregator.Page) : Prop :=
  let s := NewsAggregator.state p in
  NewsAggregator.pending p = (if NewsAggregator.isLoading s then 1 else 0) /\
  (NewsAggregator.isLoading s = true ->
   NewsAggregator.data s = VNull /\ NewsAggregator.error s = VNull) /\
  (NewsAggregator.error s = VNull \/
   truthy (NewsAggregator.error s) = true /\ NewsAggregator.data s = VNull).

(** The number of settled requests among the events of a run. *)
Definition NewsSearcher_settlements (es : list NewsSearcher.Event) : nat :=
  length (filter (fun e => match e with
                           | NewsSearcher.Settled _ => true
                           | _ => false
                           end) es).

Definition SourcesGenerator_settlements (es : list SourcesGenerator.Event)
  : nat :=
  length (filter (fun e => match e with
                           | SourcesGenerator.Settled _ _ => true
                           | _ => false
                           end) es).

Definition HelloWorldGenerator_settlements
    (es : list HelloWorldGenerator.Event) : nat :=
  length (filter (fun e => match e with
                           | HelloWorldGenerator.Settled _ => true
                           | _ => false
                           end) es).

Definition NewsAggregator_settlements (es : list NewsAggregator.Event) : nat :=
  length (filter (fun e => match e with
                           | NewsAggregator.Settled _ => true
                           | _ => false
                           end) es).

(** The requests of SourcesGenerator that are out: one or none. *)
Definition SourcesGenerator_pending_count (p : SourcesGenerator.Page) : nat :=
  match SourcesGenerator.pending p with
  | Some _ => 1
  | None => 0
  end.

(** A request of HelloWorldGenerator that asks a question worth asking: it
    goes to [/ask] with the single parameter [question], whose value is not
    empty and is its own trim. *)
Definition asks_trimmed_question (r : HelloWorldGenerator.AxiosGet) : Prop :=
  HelloWorldGenerator.get_url r = "http://localhost:8002/ask" /\
  exists q,
    HelloWorldGenerator.get_params r = [("question", q)] /\
    q <> EmptyString /\ trim q = q.

(** The request NewsSearcher makes for a form. *)
Definition search_request (f : NewsSearcher.FormData) : Request :=
  fetch_get
    ("http://localhost:8000/search?"
     ++ URLSearchParams_toString
          [("url", NewsSearcher.url f); ("query", NewsSearcher.query f);
           ("method", NewsSearcher.method f)]).

(** A request of NewsSearcher for a form with an absolute url and a
    query. *)
Definition searches_absolute_url (r : Request) : Prop :=
  exists f,
    r = search_request f /\
    startsWith (NewsSearcher.url f) "http" = true /\
    NewsSearcher.query f <> EmptyString.

(** A request of NewsAggregator for a topic that is not empty. *)
Definition coordinates_topic (r : Request) : Prop :=
  exists t,
    t <> EmptyString /\
    r = fetch_get ("http://localhost:8003/coordinate?question="
                   ++ encodeURIComponent t).

(** A url field that is empty or begins with [http]. *)
Definition absolute_or_empty (u : string) : bool :=
  is_empty u || startsWith u "http".

(** A HelloWorldGenerator page that asked once and was answered. *)
Definition answered_page : HelloWorldGenerator.Page :=
  Eval vm_compute in
    match HelloWorldGenerator.run
            [HelloWorldGenerator.Change "  why?  ";
             HelloWorldGenerator.SubmitForm;
             HelloWorldGenerator.Settled
               (AxiosAnswered 200 (VObj [("answer", VStr "because")]))]
            HelloWorldGenerator.start with
    | Some p => p
    | None => HelloWorldGenerator.start
    end.

(** A NewsAggregator page whose request failed on the network. *)
Definition failed_page : NewsAggregator.Page :=
  Eval vm_compute in
    match NewsAggregator_run
            [NewsAggregator.Change "topic" "a&b";
             NewsAggregator.SubmitForm;
             NewsAggregator.Settled (FetchRejected "Failed to fetch")]
            NewsAggregator.start with
    | Some p => p
    | None => NewsAggregator.start
    end.

(** The code units [encodeURIComponent] can produce: the unreserved ones,
    and the percent sign that introduces an escape (the two hexadecimal
    digits of an escape are unreserved themselves). *)
Definition uri_safe (c : ascii) : bool :=
  uri_unreserved (nat_of_ascii c) || (nat_of_ascii c =? 37)%nat.

(** The code units the form serializer can produce. *)
Definition form_safe (c : ascii) : bool :=
  let n := nat_of_ascii c in
  is_alnum n || existsb (Nat.eqb n) [42; 45; 46; 95; 43; 37].

(** At or above U+0020: not one of the C0 control characters, the line
    breaks among them.  (U+007F and the C1 controls U+0080..U+009F are above
    U+0020; [JSON.stringify] leaves them as they are.) *)
Definition above_c0 (c : ascii) : bool := (32 <=? nat_of_ascii c)%nat.

Definition hex_value (c : ascii) : nat :=
  let n := nat_of_ascii c in
  if ((48 <=? n) && (n <=? 57))%nat then n - 48
  else if ((65 <=? n) && (n <=? 70))%nat then n - 55
  else if ((97 <=? n) && (n <=? 102))%nat then n - 87
  else 0.

(** Reading a percent-encoded string back, as [decodeURIComponent] reads
    what [encodeURIComponent] wrote: a code unit that is not a percent sign
    stands for itself, an escape below [%80] for one code unit, and two
    escapes for the code unit whose UTF-8 bytes they are. *)
Fixpoint percent_decode (s : string) : string :=
  match s with
  | EmptyString => EmptyString
  | String c r =>
      if Ascii.eqb c "%" then
        match r with
        | String x (String y r2) =>
            let b := 16 * hex_value x + hex_value y in
            if (b <? 128)%nat then String (ascii_of_nat b) (percent_decode r2)
            else
              match r2 with
              | String _ (String z (String w r3)) =>
                  String (ascii_of_nat
                            ((b - 192) * 64 + (16 * hex_value z + hex_value w - 128)))
                    (percent_decode r3)
              | _ => EmptyString
              end
        | _ => EmptyString
        end
      else String c (percent_decode r)
  end.

(** Reading an escaped JSON string back, as [JSON.parse] reads what
    [JSON.stringify] wrote. *)
Fixpoint json_unescape (s : string) : string :=
  match s with
  | EmptyString => EmptyString
  | String c r =>
      if Ascii.eqb c "\" then
        match r with
        | String e r2 =>
            if Ascii.eqb e "u" then
              match r2 with
              | String _ (String _ (String x (String y r3))) =>
                  String (ascii_of_nat (16 * hex_value x + hex_value y))
                    (json_unescape r3)
              | _ => EmptyString
              end
            else
              String (if Ascii.eqb e "b" then ascii_of_nat 8
                      else if Ascii.eqb e "f" then ascii_of_nat 12
                      else if Ascii.eqb e "n" then ascii_of_nat 10
                      else if Ascii.eqb e "r" then ascii_of_nat 13
                      else if Ascii.eqb e "t" then ascii_of_nat 9
                      else e)
                (json_unescape r2)
        | EmptyString => EmptyString
        end
      else String c (json_unescape r)
  end.

(** The question SourcesGenerator sends for a form. *)
Definition question_sent (f : SourcesGenerator.FormData) : string :=
  SourcesGenerator.topic_or f "Show me general news sources".

(** The attributes of every element of a tree with the given tag, in
    document order. *)
Fixpoint elements (tag : string) (n : vnode) : list (list (string * string)) :=
  match n with
  | Text _ => []
  | Elem t attrs children =>
      (if String.eqb t tag then [attrs] else [])
      ++ flat_map (elements tag) children
  end%list.

(** An article with a picture and two authors. *)
Definition illustrated_article : Article.t :=
  {| Article.title := "Rain"; Article.summary := Some "It rained.";
     Article.image_url := Some "https://example.org/rain.png";
     Article.category := "weather";
     Article.publish_date := Some "2025-01-01";
     Article.authors := Some ["Ann"; "Bob"];
     Article.source_domain := "example.org";
     Article.url := "https://example.org/rain" |}.

(** What pressing the submit control comes to.  The control may be
    disabled, so that nothing happens at all.  The browser may find a
    [required] input empty: it then reports that input to the user
    and does not fire the submit event, so the handler does not run.  The
    handler may run and return before the request with an error of its
    own.  Or the request goes out. *)
Inductive SubmitResult (R : Type) : Type :=
  | ControlDisabled
  | FieldRequired (name : string)
  | Rejected (message : value)
  | Dispatched (request : R).
Arguments ControlDisabled {R}.
Arguments FieldRequired {R} name.
Arguments Rejected {R} message.
Arguments Dispatched {R} request.

(** NewsSearcher: [disabled={isLoading}] on the button, [required] on the
    [url] and [query] inputs, in this order in the form. *)
Definition NewsSearcher_press_submit (p : NewsSearcher.Page)
  : SubmitResult Request :=
  let s := NewsSearcher.state p in
  if NewsSearcher.isLoading s then ControlDisabled
  else if is_empty (NewsSearcher.url (NewsSearcher.formData s))
  then FieldRequired "url"
  else if is_empty (NewsSearcher.query (NewsSearcher.formData s))
  then FieldRequired "query"
  else Dispatched (snd (NewsSearcher.handleSubmit_begin s)).

(** NewsAggregator: [disabled={isLoading}] on the button, [required] on the
    [topic] input. *)
Definition NewsAggregator_press_submit (p : NewsAggregator.Page)
  : SubmitResult Request :=
  let s := NewsAggregator.state p in
  if NewsAggregator.isLoading s then ControlDisabled
  else if is_empty (NewsAggregator.topic (NewsAggregator.formData s))
  then FieldRequired "topic"
  else Dispatched (snd (NewsAggregator.handleSubmit_begin s)).

(** HelloWorldGenerator: [disabled={isLoading || !question}] on the button,
    no [required] input; the check is the handler's. *)
Definition HelloWorldGenerator_press_submit (p : HelloWorldGenerator.Page)
  : SubmitResult HelloWorldGenerator.AxiosGet :=
  let s := HelloWorldGenerator.state p in
  if HelloWorldGenerator.isLoading s
     || is_empty (HelloWorldGenerator.question s)
  then ControlDisabled
  else
    match HelloWorldGenerator.handleSubmit_begin s with
    | (s', None) => Rejected (HelloWorldGenerator.error s')
    | (_, Some request) => Dispatched request
    end.



(** ** Values *)

Lemma truthy_js_or_text (m fallback : string) :
  is_empty fallback = false ->
  truthy (js_or (VStr m) (VStr fallback)) = true.
Proof.
  intros Hf. unfold js_or. simpl.
  destruct (is_empty m) eqn:Hm; simpl.
  - now rewrite Hf.
  - now rewrite Hm.
Qed.

Lemma truthy_js_or_fallback (v : value) (fallback : string) :
  is_empty fallback = false ->
  truthy (js_or v (VStr fallback)) = true.
Proof.
  intros Hf. unfold js_or.
  destruct (truthy v) eqn:Hv; [exact Hv | simpl; now rewrite Hf].
Qed.

Lemma js_or_text_nonempty (m fallback : string) :
  is_empty m = false -> js_or (VStr m) (VStr fallback) = VStr m.
Proof. intros Hm. unfold js_or. simpl. now rewrite Hm. Qed.

Lemma classify_settled (payload error : value) :
  truthy payload = true /\ truthy error = false \/
  truthy error = true /\ truthy payload = false ->
  exists v, classify false payload error = Some v /\ settled v = true.
Proof.
  intros [[Hp He] | [He Hp]]; unfold classify; rewrite Hp, He.
  - now exists (Success payload).
  - now exists (Error error).
Qed.

(** ** What the [try] blocks can end with *)

Lemma NewsSearcher_try_ok (o : fetch_outcome)
      (update : NewsSearcher.State -> NewsSearcher.State) :
  NewsSearcher.handleSubmit_try o = Ok update ->
  (exists props, update = NewsSearcher.setArticles (VObj props)) \/
  (exists m, truthy m = true /\ update = NewsSearcher.setError m).
Proof.
  unfold NewsSearcher.handleSubmit_try.
  destruct o as [m | status [data | m]]; simpl; try discriminate.
  destruct (response_ok status); simpl.
  - destruct data as [ | | b | r | t | items | props]; simpl; try discriminate.
    destruct (truthy (lookup "articles" props)
              && Array_isArray (lookup "articles" props)).
    + intros [= <-]. left. now exists props.
    + destruct (truthy (lookup "message" props)) eqn:Hm; [ | discriminate].
      intros [= <-]. right. now exists (lookup "message" props).
  - destruct data; simpl; try discriminate;
      destruct (new_Error _); discriminate.
Qed.

Lemma SourcesGenerator_try_ok (f : SourcesGenerator.FormData) (now : string)
      (o : fetch_outcome)
      (update : SourcesGenerator.State -> SourcesGenerator.State) :
  SourcesGenerator.handleSubmit_try f now o = Ok update ->
  exists sources,
    update = SourcesGenerator.setSourcesData
               (VObj [("topic", VStr (SourcesGenerator.topic_or f "General News"));
                      ("created_at", VStr now);
                      ("sources", sources)]).
Proof.
  unfold SourcesGenerator.handleSubmit_try.
  destruct o as [m | status [data | m]]; simpl; try discriminate.
  destruct (response_ok status); simpl.
  - destruct data as [ | | b | r | t | items | props]; simpl; try discriminate.
    destruct (truthy (lookup "answer" props)); simpl; [ | discriminate].
    destruct (get (lookup "answer" props) "sources") as [sources | e];
      simpl; [ | discriminate].
    destruct (truthy sources); simpl; [ | discriminate].
    destruct sources as [ | | b | r | t | [ | x items] | ps]; try discriminate.
    intros [= <-]. eexists. reflexivity.
  - destruct data; simpl; try discriminate;
      destruct (new_Error _); discriminate.
Qed.

Lemma HelloWorldGenerator_try_ok (o : axios_outcome)
      (update : HelloWorldGenerator.State -> HelloWorldGenerator.State) :
  HelloWorldGenerator.handleSubmit_try o = Ok update ->
  exists a, truthy a = true /\ update = HelloWorldGenerator.setAnswer a.
Proof.
  unfold HelloWorldGenerator.handleSubmit_try.
  destruct o as [status data | m | m]; simpl; try discriminate.
  destruct (response_ok status); simpl; [ | discriminate].
  destruct (truthy data) eqn:Hd; [ | discriminate].
  destruct (get data "answer") as [a | e]; simpl; [ | discriminate].
  destruct (truthy a) eqn:Ha; [ | discriminate].
  intros [= <-]. now exists a.
Qed.

Lemma HelloWorldGenerator_catch_error (e : js_error)
      (s : HelloWorldGenerator.State) :
  exists m, truthy m = true /\
            HelloWorldGenerator.handleSubmit_catch e s
            = HelloWorldGenerator.setError m s.
Proof.
  unfold HelloWorldGenerator.handleSubmit_catch.
  destruct (HelloWorldGenerator.error_response e) as [[status data] | ].
  - eexists. split; [ | reflexivity].
    now apply truthy_js_or_fallback.
  - destruct (HelloWorldGenerator.error_request e).
    + eexists. split; [ | reflexivity]. reflexivity.
    + eexists. split; [ | reflexivity]. now apply truthy_js_or_text.
Qed.

Lemma NewsAggregator_try_ok (o : fetch_outcome)
      (update : NewsAggregator.State -> NewsAggregator.State) :
  NewsAggregator.handleSubmit_try o = Ok update ->
  exists status body,
    o = FetchResponse status (BodyJson body) /\
    response_ok status = true /\
    update = NewsAggregator.setData body.
Proof.
  unfold NewsAggregator.handleSubmit_try.
  destruct o as [m | status [body | m]]; simpl; try discriminate.
  destruct (response_ok status) eqn:Hok; simpl.
  - intros [= <-]. now exists status, body.
  - destruct body; simpl; try discriminate;
      destruct (new_Error _); discriminate.
Qed.

(** ** The state after one submission *)

Lemma NewsSearcher_settle_cases (o : fetch_outcome) (s : NewsSearcher.State) :
  NewsSearcher.articles s = VNull -> NewsSearcher.error s = VNull ->
  let s' := NewsSearcher.handleSubmit_settle o s in
  NewsSearcher.isLoading s' = false /\
  NewsSearcher.formData s' = NewsSearcher.formData s /\
  (truthy (NewsSearcher.articles s') = true /\ NewsSearcher.error s' = VNull \/
   truthy (NewsSearcher.error s') = true /\ NewsSearcher.articles s' = VNull).
Proof.
  intros Ha He. unfold NewsSearcher.handleSubmit_settle.
  destruct (NewsSearcher.handleSubmit_try o) as [update | e] eqn:Htry.
  - destruct (NewsSearcher_try_ok _ _ Htry) as [[props ->] | [m [Hm ->]]];
      simpl; repeat split; auto.
  - simpl. repeat split. right. split; [ | reflexivity].
    now apply truthy_js_or_text.
Qed.

Lemma SourcesGenerator_settle_cases (f : SourcesGenerator.FormData)
      (now : string) (o : fetch_outcome) (s : SourcesGenerator.State) :
  SourcesGenerator.sourcesData s = VNull -> SourcesGenerator.error s = VNull ->
  let s' := SourcesGenerator.handleSubmit_settle f now o s in
  SourcesGenerator.isLoading s' = false /\
  SourcesGenerator.formData s' = SourcesGenerator.formData s /\
  (truthy (SourcesGenerator.sourcesData s') = true
     /\ SourcesGenerator.error s' = VNull \/
   truthy (SourcesGenerator.error s') = true
     /\ SourcesGenerator.sourcesData s' = VNull).
Proof.
  intros Ha He. unfold SourcesGenerator.handleSubmit_settle.
  destruct (SourcesGenerator.handleSubmit_try f now o) as [update | e] eqn:Htry.
  - destruct (SourcesGenerator_try_ok _ _ _ _ Htry) as [sources ->].
    simpl; repeat split; auto.
  - simpl. repeat split. right. split; [ | reflexivity].
    now apply truthy_js_or_text.
Qed.

Lemma HelloWorldGenerator_settle_cases (o : axios_outcome)
      (s : HelloWorldGenerator.State) :
  HelloWorldGenerator.answer s = VStr EmptyString ->
  HelloWorldGenerator.error s = VNull ->
  let s' := HelloWorldGenerator.handleSubmit_settle o s in
  HelloWorldGenerator.isLoading s' = false /\
  HelloWorldGenerator.question s' = HelloWorldGenerator.question s /\
  (truthy (HelloWorldGenerator.answer s') = true
     /\ HelloWorldGenerator.error s' = VNull \/
   truthy (HelloWorldGenerator.error s') = true
     /\ HelloWorldGenerator.answer s' = VStr EmptyString).
Proof.
  intros Ha He. unfold HelloWorldGenerator.handleSubmit_settle.
  destruct (HelloWorldGenerator.handleSubmit_try o) as [update | e] eqn:Htry.
  - destruct (HelloWorldGenerator_try_ok _ _ Htry) as [a [Hta ->]].
    simpl; repeat split; auto.
  - destruct (HelloWorldGenerator_catch_error e s) as [m [Hm ->]].
    simpl. repeat split. right. split; assumption.
Qed.

(** ** C1: one submission goes through Loading and settles *)

(** C1, as stated, fails on NewsAggregator: the handler keeps the body of a
    2xx response without looking at it, so a body of [null] leaves the page
    with no data and no error once loading has ended, which is Idle and
    neither Success nor Error. *)
Lemma aggregator_null_body_ends_idle :
  let s := NewsAggregator.handleInputChange "topic" "ai"
             NewsAggregator.initial in
  NewsAggregator.required_filled (NewsAggregator.formData s) = true /\
  match NewsAggregator.handleSubmit s (FetchResponse 200 (BodyJson VNull))
  with
  | (_, s1, s2) =>
      NewsAggregator.view s1 = Some Loading /\
      NewsAggregator.view s2 = Some Idle /\
      ~ (exists v, NewsAggregator.view s2 = Some v /\ settled v = true)
  end.
Proof.
  simpl. repeat split.
  intros [v [Hv Hs]]. injection Hv as <-. discriminate.
Qed.

(** C1 (amended). On NewsSearcher, SourcesGenerator and HelloWorldGenerator,
    one submission from any state (the Idle state of a fresh page included)
    first shows the Loading state, with [isLoading] set and the previous
    payload and error cleared, while the request is out; once the request
    has settled, whatever the outcome, the page is in exactly one of
    Success and Error.  On HelloWorldGenerator this is for a question that
    is not blank, the only case in which the request is made.  On
    NewsAggregator the submission goes through the same Loading state and
    then ends either in Error, or, for a 2xx response with a JSON body,
    with that body as the data and no error: Success when the body is
    truthy, Idle when it is falsy ([null], [0], [false], the empty
    string). *)
Theorem submission_passes_through_loading :
  (NewsSearcher.view NewsSearcher.initial = Some Idle /\
   forall (s : NewsSearcher.State) (o : fetch_outcome),
     match NewsSearcher.handleSubmit s o with
     | (_, s1, s2) =>
         NewsSearcher.isLoading s1 = true /\
         NewsSearcher.articles s1 = VNull /\
         NewsSearcher.error s1 = VNull /\
         NewsSearcher.view s1 = Some Loading /\
         exists v, NewsSearcher.view s2 = Some v /\ settled v = true
     end) /\
  (SourcesGenerator.view SourcesGenerator.initial = Some Idle /\
   forall (s : SourcesGenerator.State) (now : string) (o : fetch_outcome),
     match SourcesGenerator.handleSubmit s now o with
     | (_, s1, s2) =>
         SourcesGenerator.isLoading s1 = true /\
         SourcesGenerator.sourcesData s1 = VNull /\
         SourcesGenerator.error s1 = VNull /\
         SourcesGenerator.view s1 = Some Loading /\
         exists v, SourcesGenerator.view s2 = Some v /\ settled v = true
     end) /\
  (HelloWorldGenerator.view HelloWorldGenerator.initial = Some Idle /\
   forall (s : HelloWorldGenerator.State) (o : axios_outcome),
     is_empty (trim (HelloWorldGenerator.question s)) = false ->
     match HelloWorldGenerator.handleSubmit s o with
     | (request, s1, s2) =>
         request <> None /\
         HelloWorldGenerator.isLoading s1 = true /\
         HelloWorldGenerator.answer s1 = VStr EmptyString /\
         HelloWorldGenerator.error s1 = VNull /\
         HelloWorldGenerator.view s1 = Some Loading /\
         exists v, HelloWorldGenerator.view s2 = Some v /\ settled v = true
     end) /\
  (NewsAggregator.view NewsAggregator.initial = Some Idle /\
   forall (s : NewsAggregator.State) (o : fetch_outcome),
     match NewsAggregator.handleSubmit s o with
     | (_, s1, s2) =>
         NewsAggregator.isLoading s1 = true /\
         NewsAggregator.data s1 = VNull /\
         NewsAggregator.error s1 = VNull /\
         NewsAggregator.view s1 = Some Loading /\
         NewsAggregator.isLoading s2 = false /\
         ((exists m,
             NewsAggregator.view s2 = Some (Error m) /\
             NewsAggregator.error s2 = m /\
             NewsAggregator.data s2 = VNull) \/
          (exists status body,
             o = FetchResponse status (BodyJson body) /\
             response_ok status = true /\
             NewsAggregator.data s2 = body /\
             NewsAggregator.error s2 = VNull /\
             NewsAggregator.view s2
             = Some (if truthy body then Success body else Idle)))
     end).
Proof.
  split; [ | split; [ | split]]; (split; [reflexivity | ]).
  - intros s o. unfold NewsSearcher.handleSubmit. simpl.
    repeat (split; [reflexivity | ]).
    set (s1 := NewsSearcher.setError _ _).
    destruct (NewsSearcher_settle_cases o s1 eq_refl eq_refl)
      as (Hl & _ & Hcases).
    unfold NewsSearcher.view. rewrite Hl. apply classify_settled.
    destruct Hcases as [[Ha ->] | [He ->]]; [left | right]; now split.
  - intros s now o. unfold SourcesGenerator.handleSubmit. simpl.
    repeat (split; [reflexivity | ]).
    set (s1 := SourcesGenerator.setError _ _).
    destruct (SourcesGenerator_settle_cases
                (SourcesGenerator.formData s) now o s1 eq_refl eq_refl)
      as (Hl & _ & Hcases).
    unfold SourcesGenerator.view. rewrite Hl. apply classify_settled.
    destruct Hcases as [[Ha ->] | [He ->]]; [left | right]; now split.
  - intros s o Hq.
    unfold HelloWorldGenerator.handleSubmit,
      HelloWorldGenerator.handleSubmit_begin.
    rewrite Hq.
    split; [discriminate | ].
    repeat (split; [reflexivity | ]).
    set (s1 := HelloWorldGenerator.setError _ _).
    destruct (HelloWorldGenerator_settle_cases o s1 eq_refl eq_refl)
      as (Hl & _ & Hcases).
    unfold HelloWorldGenerator.view. rewrite Hl. apply classify_settled.
    destruct Hcases as [[Ha ->] | [He ->]]; [left | right]; now split.
  - intros s o. unfold NewsAggregator.handleSubmit.
    cbn [NewsAggregator.handleSubmit_begin].
    set (s1 := NewsAggregator.setError _ _).
    repeat (split; [reflexivity | ]).
    unfold NewsAggregator.handleSubmit_settle, NewsAggregator.view.
    destruct (NewsAggregator.handleSubmit_try o) as [update | e] eqn:Htry.
    + destruct (NewsAggregator_try_ok _ _ Htry)
        as (status & body & -> & Hok & ->).
      right. exists status, body.
      repeat (split; [reflexivity || assumption | ]).
      unfold classify. simpl. now destruct (truthy body).
    + left. eexists.
      split; [ | split; reflexivity].
      unfold classify. simpl.
      now rewrite truthy_js_or_text.
Qed.

(** A question and an answer for which the C1 statement is exercised. *)
Lemma submission_passes_through_loading_witness :
  let s := HelloWorldGenerator.handleInputChange "hi"
             HelloWorldGenerator.initial in
  let o := AxiosAnswered 200 (VObj [("answer", VStr "hello")]) in
  is_empty (trim (HelloWorldGenerator.question s)) = false /\
  match HelloWorldGenerator.handleSubmit s o with
  | (request, s1, s2) =>
      request <> None /\
      HelloWorldGenerator.isLoading s1 = true /\
      HelloWorldGenerator.answer s1 = VStr EmptyString /\
      HelloWorldGenerator.error s1 = VNull /\
      HelloWorldGenerator.view s1 = Some Loading /\
      exists v, HelloWorldGenerator.view s2 = Some v /\ settled v = true
  end.
Proof.
  intros s o. split; [reflexivity | ].
  apply (proj2 (proj1 (proj2 (proj2 submission_passes_through_loading))) s o).
  reflexivity.
Defined.

(** ** C2: the error text of a non-2xx response *)

(** C2, as stated, fails: an [error] key holding the empty string is not shown
    as it is; NewsSearcher replaces it by its own text. *)
Lemma empty_server_error_is_replaced :
  match NewsSearcher.handleSubmit NewsSearcher.initial
          (FetchResponse 500 (BodyJson (VObj [("error", VStr EmptyString)])))
  with
  | (_, _, s2) =>
      NewsSearcher.error s2 = VStr "Server error (500). Please try again." /\
      NewsSearcher.error s2 <> VStr EmptyString
  end.
Proof. split; [reflexivity | discriminate]. Qed.

(** C2 (amended). When a submission receives a non-2xx response whose JSON
    body is an object with an [error] key holding a non-empty string [X],
    the page ends in the Error state with message [X], unchanged.  This
    holds on the four pages. *)
Theorem server_error_shown_verbatim :
  forall (status : nat) (props : list (string * value)) (X : string),
    response_ok status = false ->
    lookup "error" props = VStr X ->
    is_empty X = false ->
    (forall s : NewsSearcher.State,
       match NewsSearcher.handleSubmit s
               (FetchResponse status (BodyJson (VObj props))) with
       | (_, _, s2) => NewsSearcher.view s2 = Some (Error (VStr X))
       end) /\
    (forall (s : SourcesGenerator.State) (now : string),
       match SourcesGenerator.handleSubmit s now
               (FetchResponse status (BodyJson (VObj props))) with
       | (_, _, s2) => SourcesGenerator.view s2 = Some (Error (VStr X))
       end) /\
    (forall s : NewsAggregator.State,
       match NewsAggregator.handleSubmit s
               (FetchResponse status (BodyJson (VObj props))) with
       | (_, _, s2) =>
           NewsAggregator.isLoading s2 = false /\
           NewsAggregator.data s2 = VNull /\
           NewsAggregator.error s2 = VStr X
       end) /\
    (forall s : HelloWorldGenerator.State,
       is_empty (trim (HelloWorldGenerator.question s)) = false ->
       match HelloWorldGenerator.handleSubmit s
               (AxiosAnswered status (VObj props)) with
       | (_, _, s2) => HelloWorldGenerator.view s2 = Some (Error (VStr X))
       end).
Proof.
  intros status props X Hst Herr HX.
  split; [ | split; [ | split]].
  - intros s. unfold NewsSearcher.handleSubmit, NewsSearcher.view,
      NewsSearcher.handleSubmit_settle, NewsSearcher.handleSubmit_try.
    simpl. rewrite Hst. simpl. rewrite Herr.
    now evaluate_with HX.
  - intros s now. unfold SourcesGenerator.handleSubmit, SourcesGenerator.view,
      SourcesGenerator.handleSubmit_settle, SourcesGenerator.handleSubmit_try.
    simpl. rewrite Hst. simpl. rewrite Herr.
    now evaluate_with HX.
  - intros s. unfold NewsAggregator.handleSubmit. simpl.
    unfold NewsAggregator.handleSubmit_settle, NewsAggregator.handleSubmit_try.
    simpl. rewrite Hst. simpl. rewrite Herr.
    evaluate_with HX. now repeat split.
  - intros s Hq.
    unfold HelloWorldGenerator.handleSubmit,
      HelloWorldGenerator.handleSubmit_begin.
    rewrite Hq.
    unfold HelloWorldGenerator.view, HelloWorldGenerator.handleSubmit_settle,
      HelloWorldGenerator.handleSubmit_try.
    simpl. rewrite Hst. simpl. rewrite Herr.
    now evaluate_with HX.
Qed.

(** The C2 statement at status 404 and the text [not found]. *)
Lemma server_error_shown_verbatim_witness :
  let props := [("error", VStr "not found")] in
  let o := FetchResponse 404 (BodyJson (VObj props)) in
  (response_ok 404 = false /\
   lookup "error" props = VStr "not found" /\
   is_empty "not found" = false /\
   is_empty (trim (HelloWorldGenerator.question
                     (HelloWorldGenerator.handleInputChange "hi"
                        HelloWorldGenerator.initial))) = false) /\
  match NewsSearcher.handleSubmit NewsSearcher.initial o with
  | (_, _, s2) => NewsSearcher.view s2 = Some (Error (VStr "not found"))
  end /\
  match HelloWorldGenerator.handleSubmit
          (HelloWorldGenerator.handleInputChange "hi"
             HelloWorldGenerator.initial)
          (AxiosAnswered 404 (VObj props)) with
  | (_, _, s2) => HelloWorldGenerator.view s2 = Some (Error (VStr "not found"))
  end.
Proof.
  intros props o.
  pose proof (server_error_shown_verbatim 404 props "not found"
                eq_refl eq_refl eq_refl) as (Hn & _ & _ & Hh).
  split; [repeat split | ].
  split.
  - exact (Hn NewsSearcher.initial).
  - apply Hh. reflexivity.
Defined.

(** ** C4: no response from the network *)

(** C4, as stated, fails: on NewsSearcher a failed [fetch] shows the text of
    the exception, which is not the message HelloWorldGenerator shows. *)
Lemma network_failure_shows_exception_text :
  NewsSearcher.error
    (NewsSearcher.handleSubmit_settle (FetchRejected "Failed to fetch")
       (fst (NewsSearcher.handleSubmit_begin NewsSearcher.initial)))
  = VStr "Failed to fetch" /\
  NewsSearcher.error
    (NewsSearcher.handleSubmit_settle (FetchRejected "Failed to fetch")
       (fst (NewsSearcher.handleSubmit_begin NewsSearcher.initial)))
  <> HelloWorldGenerator.error
       (HelloWorldGenerator.handleSubmit_settle
          (AxiosNoResponse "Network Error")
          (fst (HelloWorldGenerator.handleSubmit_begin
                  (HelloWorldGenerator.handleInputChange "hi"
                     HelloWorldGenerator.initial)))).
Proof. split; [reflexivity | discriminate]. Qed.

(** C4 (amended). On HelloWorldGenerator a request that gets no response
    ends with the fixed message, whatever the text of the exception.  On
    the three pages that use [fetch], it ends with the text of the
    exception, and with the page's own fallback text when that text is
    empty. *)
Theorem network_failure_message :
  (forall (s : HelloWorldGenerator.State) (m : string),
     let s' := HelloWorldGenerator.handleSubmit_settle (AxiosNoResponse m) s in
     HelloWorldGenerator.isLoading s' = false /\
     HelloWorldGenerator.error s'
     = VStr "No response from server. Please check if the backend is running.")
  /\
  (forall (s : NewsSearcher.State) (m : string),
     let s' := NewsSearcher.handleSubmit_settle (FetchRejected m) s in
     NewsSearcher.isLoading s' = false /\
     NewsSearcher.articles s' = VNull /\
     NewsSearcher.error s'
     = VStr (if is_empty m
             then "Failed to search articles. Please try again." else m))
  /\
  (forall (f : SourcesGenerator.FormData) (now : string)
          (s : SourcesGenerator.State) (m : string),
     let s' := SourcesGenerator.handleSubmit_settle f now (FetchRejected m) s in
     SourcesGenerator.isLoading s' = false /\
     SourcesGenerator.sourcesData s' = VNull /\
     SourcesGenerator.error s'
     = VStr (if is_empty m
             then "Failed to generate sources. Please try again." else m))
  /\
  (forall (s : NewsAggregator.State) (m : string),
     let s' := NewsAggregator.handleSubmit_settle (FetchRejected m) s in
     NewsAggregator.isLoading s' = false /\
     NewsAggregator.error s'
     = VStr (if is_empty m then "Failed to fetch data" else m)).
Proof.
  repeat split; simpl; unfold js_or; simpl; now destruct (is_empty m).
Qed.

(** ** C8: the language field stays on the page *)

(** C8. On NewsAggregator and on SourcesGenerator the request is built from
    the topic alone: two states of the page whose forms hold the same
    topic send the same request (method, URL, headers and body), whatever
    their language fields, and whatever else differs between them. *)
Theorem language_never_sent :
  (forall s1 s2 : NewsAggregator.State,
     NewsAggregator.topic (NewsAggregator.formData s1)
     = NewsAggregator.topic (NewsAggregator.formData s2) ->
     snd (NewsAggregator.handleSubmit_begin s1)
     = snd (NewsAggregator.handleSubmit_begin s2)) /\
  (forall s1 s2 : SourcesGenerator.State,
     SourcesGenerator.topic (SourcesGenerator.formData s1)
     = SourcesGenerator.topic (SourcesGenerator.formData s2) ->
     snd (SourcesGenerator.handleSubmit_begin s1)
     = snd (SourcesGenerator.handleSubmit_begin s2)).
Proof.
  split; intros s1 s2 Ht; simpl.
  - now rewrite Ht.
  - unfold SourcesGenerator.topic_or. now rewrite Ht.
Qed.

(** The C8 statement on two forms with the topic [ai], one in English and
    one in French. *)
Lemma language_never_sent_witness :
  let a1 := NewsAggregator.handleInputChange "topic" "ai"
              NewsAggregator.initial in
  let a2 := NewsAggregator.handleInputChange "language" "fr" a1 in
  let g1 := SourcesGenerator.handleInputChange "topic" "ai"
              SourcesGenerator.initial in
  let g2 := SourcesGenerator.handleInputChange "language" "fr" g1 in
  (NewsAggregator.topic (NewsAggregator.formData a1)
   = NewsAggregator.topic (NewsAggregator.formData a2) /\
   NewsAggregator.language (NewsAggregator.formData a1)
   <> NewsAggregator.language (NewsAggregator.formData a2) /\
   SourcesGenerator.topic (SourcesGenerator.formData g1)
   = SourcesGenerator.topic (SourcesGenerator.formData g2) /\
   SourcesGenerator.language (SourcesGenerator.formData g1)
   <> SourcesGenerator.language (SourcesGenerator.formData g2)) /\
  snd (NewsAggregator.handleSubmit_begin a1)
  = snd (NewsAggregator.handleSubmit_begin a2) /\
  snd (SourcesGenerator.handleSubmit_begin g1)
  = snd (SourcesGenerator.handleSubmit_begin g2).
Proof.
  intros a1 a2 g1 g2.
  split; [repeat split; discriminate | ].
  split.
  - apply (proj1 language_never_sent a1 a2). reflexivity.
  - apply (proj2 language_never_sent g1 g2). reflexivity.
Defined.

(** ** C10: the default question of SourcesGenerator *)

(** C10. On SourcesGenerator, submitting with an empty topic sends a POST
    to [/sources] whose body is the JSON object with the single key
    [question] and the value [Show me general news sources], and when the
    submission succeeds the stored topic is [General News].  Whatever the
    topic, the question that is sent is never the empty string. *)
Theorem empty_topic_defaults :
  (forall (s : SourcesGenerator.State) (now : string) (o : fetch_outcome),
     SourcesGenerator.topic (SourcesGenerator.formData s) = EmptyString ->
     match SourcesGenerator.handleSubmit s now o with
     | (request, _, s2) =>
         request = {| req_method := "POST";
                      req_url := "http://localhost:8002/sources";
                      req_headers := [("Content-Type", "application/json")];
                      req_body := Some general_question_body |} /\
         (truthy (SourcesGenerator.sourcesData s2) = true ->
          get_opt (SourcesGenerator.sourcesData s2) "topic"
          = VStr "General News")
     end) /\
  (forall s : SourcesGenerator.State,
     exists q,
       q <> EmptyString /\
       req_body (snd (SourcesGenerator.handleSubmit_begin s))
       = Some (JSON_stringify [("question", q)])).
Proof.
  split.
  - intros s now o Ht. unfold SourcesGenerator.handleSubmit. simpl.
    unfold SourcesGenerator.topic_or at 1. rewrite Ht. simpl.
    split; [reflexivity | ].
    unfold SourcesGenerator.handleSubmit_settle.
    destruct (SourcesGenerator.handleSubmit_try _ now o) as [update | e] eqn:Htry.
    + destruct (SourcesGenerator_try_ok _ _ _ _ Htry) as [sources ->].
      simpl. unfold SourcesGenerator.topic_or. now rewrite Ht.
    + simpl. discriminate.
  - intros s. simpl. unfold SourcesGenerator.topic_or.
    destruct (SourcesGenerator.topic (SourcesGenerator.formData s)) eqn:Ht.
    + eexists. split; [ | reflexivity]. discriminate.
    + eexists. split; [ | reflexivity]. discriminate.
Qed.

(** The C10 statement on a fresh page and a successful response. *)
Lemma empty_topic_defaults_witness :
  let s := SourcesGenerator.initial in
  let o := FetchResponse 200
             (BodyJson (VObj [("answer",
                               VObj [("sources",
                                      VArr [VObj [("name", VStr "BBC")]])])])) in
  SourcesGenerator.topic (SourcesGenerator.formData s) = EmptyString /\
  match SourcesGenerator.handleSubmit s "2025-01-01T00:00:00.000Z" o with
  | (request, _, s2) =>
      truthy (SourcesGenerator.sourcesData s2) = true /\
      req_body request = Some general_question_body /\
      get_opt (SourcesGenerator.sourcesData s2) "topic" = VStr "General News"
  end.
Proof.
  intros s o. split; [reflexivity | ].
  pose proof (proj1 empty_topic_defaults s "2025-01-01T00:00:00.000Z" o
                eq_refl) as H.
  destruct (SourcesGenerator.handleSubmit s "2025-01-01T00:00:00.000Z" o)
    as [[request s1] s2] eqn:Hs.
  destruct H as [Hreq Htopic].
  assert (Ht : truthy (SourcesGenerator.sourcesData s2) = true).
  { injection Hs as _ _ <-. reflexivity. }
  split; [exact Ht | ].
  split; [now rewrite Hreq | exact (Htopic Ht)].
Defined.

(** ** Cards *)

Lemma one_per_entry_of_Forall2 {A : Type} (card_of : A -> vnode -> Prop)
      (items : list A) (cards : list vnode) :
  Forall2 card_of items cards -> one_per_entry card_of items cards.
Proof.
  intros H. split.
  - symmetry. exact (Forall2_length H).
  - induction H as [ | a c items cards Hac _ IH]; intros i b Hi.
    + destruct i; discriminate.
    + destruct i as [ | i]; simpl in *.
      * injection Hi as <-. now exists c.
      * now apply IH.
Qed.

Lemma one_per_entry_map {A : Type} (card : A -> vnode) (items : list A) :
  one_per_entry (fun a c => c = card a) items (map card items).
Proof.
  apply one_per_entry_of_Forall2.
  induction items; simpl; constructor; auto.
Qed.

(** The two article cards are the same card as soon as the list of authors
    is there. *)
Lemma searcher_card_is_aggregator_card {P : Platform} (a : Article.t)
      (names : list string) :
  Article.authors a = Some names ->
  NewsSearcher.ArticleCard a = Ok (NewsAggregator.ArticleCard a).
Proof.
  intros H. unfold NewsSearcher.ArticleCard, NewsAggregator.ArticleCard.
  rewrite H. reflexivity.
Qed.

Lemma child_no_anchor (o : option string) : flat_map anchors (child o) = [].
Proof.
  destruct o as [s | ]; simpl; [ | reflexivity].
  now destruct (is_empty s).
Qed.

Lemma aggregator_card_anchor {P : Platform} (a : Article.t) :
  anchors (NewsAggregator.ArticleCard a) = [Some (Article.url a)].
Proof.
  unfold NewsAggregator.ArticleCard.
  destruct a as [title summary image category date authors domain url].
  simpl.
  destruct (is_empty title), (is_empty category), (is_empty domain);
    (destruct image as [src | ]; [destruct (is_empty src) | ]);
    (destruct authors as [names | ];
     [destruct (0 <? length names)%nat;
      [destruct (is_empty (join ", " names)) | ] | ]);
    reflexivity.
Qed.

Lemma has_text_intro (s : string) (n : vnode) :
  In s (texts n) -> has_text s n = true.
Proof.
  intros H. unfold has_text. apply existsb_exists.
  exists s. split; [exact H | apply String.eqb_refl].
Qed.

(** The card of NewsAggregator is defined on every article, and fills in
    for a missing summary and a missing date. *)
Lemma aggregator_card_placeholders {P : Platform} (a : Article.t) :
  (Article.summary a = None ->
   has_text "No summary available" (NewsAggregator.ArticleCard a) = true) /\
  (Article.publish_date a = None ->
   has_text "Date not available" (NewsAggregator.ArticleCard a) = true).
Proof.
  destruct a as [title summary image category date authors domain url].
  split; simpl; intros ->; apply has_text_intro;
    unfold NewsAggregator.ArticleCard; simpl; find_text.
Qed.

(** ** C3: an article without its optional fields *)

(** C3 is broken by the card of NewsSearcher: it
    reads [article.authors.length] unguarded, so rendering an article that
    has no [authors] throws instead of leaving the line out.  The card of
    NewsAggregator, which reads [article.authors?.length], renders the same
    article ([aggregator_card_placeholders]). *)
Theorem searcher_card_throws_without_authors :
  forall (P : Platform) (a : Article.t),
    Article.authors a = None ->
    NewsSearcher.ArticleCard a
    = Throw (JsError "Cannot read properties of undefined (reading 'length')").
Proof.
  intros P a H. unfold NewsSearcher.ArticleCard. now rewrite H.
Qed.

(** The C3 statement on an article that has only its required fields. *)
Lemma searcher_card_throws_without_authors_witness :
  Article.authors (bare_article None) = None /\
  @NewsSearcher.ArticleCard sample_platform (bare_article None)
  = Throw (JsError "Cannot read properties of undefined (reading 'length')").
Proof.
  split; [reflexivity | ].
  apply (searcher_card_throws_without_authors sample_platform
           (bare_article None)).
  reflexivity.
Defined.

(** ** C6: the link of a source card *)

(** C6. A source card, on SourcesGenerator as on NewsAggregator, either
    links or apologises: when the url of the source parses, the card has
    exactly one anchor and its [href] is that url; when it does not parse,
    or is missing, the card shows [Invalid or missing URL] and has no
    anchor.  What parses is the browser's decision. *)
Theorem source_card_link_or_fallback :
  forall (P : Platform) (source : Source.t),
    (if SourcesGenerator.isValidUrl (Source.url source)
     then anchors (SourcesGenerator.SourceCard source) = [Source.url source]
     else has_text "Invalid or missing URL"
            (SourcesGenerator.SourceCard source) = true /\
          anchors (SourcesGenerator.SourceCard source) = []) /\
    (if NewsAggregator.isValidUrl (Source.url source)
     then anchors (NewsAggregator.SourceCard source) = [Source.url source]
     else has_text "Invalid or missing URL"
            (NewsAggregator.SourceCard source) = true /\
          anchors (NewsAggregator.SourceCard source) = []).
Proof.
  intros P [name description url]. split.
  - unfold SourcesGenerator.SourceCard. simpl.
    destruct (SourcesGenerator.isValidUrl url).
    + simpl. rewrite child_no_anchor. now destruct url.
    + split; [apply has_text_intro; find_text | reflexivity].
  - unfold NewsAggregator.SourceCard. simpl.
    destruct (NewsAggregator.isValidUrl url).
    + simpl. rewrite child_no_anchor. now destruct url.
    + split; [apply has_text_intro; find_text | reflexivity].
Qed.

(** ** The payload a page keeps *)

(** A successful response is kept as it came: NewsSearcher and
    NewsAggregator store the parsed body itself, SourcesGenerator stores
    the [sources] array of the body, so the grids are given the entries of
    the response in the order of the response. *)
Lemma payload_stored_as_received :
  (forall (s : NewsSearcher.State) (status : nat)
          (props : list (string * value)) (items : list value),
     response_ok status = true ->
     lookup "articles" props = VArr items ->
     NewsSearcher.articles
       (NewsSearcher.handleSubmit_settle
          (FetchResponse status (BodyJson (VObj props))) s)
     = VObj props) /\
  (forall (s : NewsAggregator.State) (status : nat) (body : value),
     response_ok status = true ->
     NewsAggregator.data
       (NewsAggregator.handleSubmit_settle
          (FetchResponse status (BodyJson body)) s)
     = body) /\
  (forall (f : SourcesGenerator.FormData) (now : string)
          (s : SourcesGenerator.State) (status : nat)
          (props answer : list (string * value)) (x : value)
          (items : list value),
     response_ok status = true ->
     lookup "answer" props = VObj answer ->
     lookup "sources" answer = VArr (x :: items) ->
     get_opt
       (SourcesGenerator.sourcesData
          (SourcesGenerator.handleSubmit_settle f now
             (FetchResponse status (BodyJson (VObj props))) s))
       "sources"
     = VArr (x :: items)).
Proof.
  split; [ | split].
  - intros s status props items Hok Ha.
    unfold NewsSearcher.handleSubmit_settle, NewsSearcher.handleSubmit_try.
    simpl. rewrite Hok. simpl. now rewrite Ha.
  - intros s status body Hok.
    unfold NewsAggregator.handleSubmit_settle, NewsAggregator.handleSubmit_try.
    simpl. now rewrite Hok.
  - intros f now s status props answer x items Hok Ha Hs.
    unfold SourcesGenerator.handleSubmit_settle,
      SourcesGenerator.handleSubmit_try.
    simpl. rewrite Hok. simpl. rewrite Ha. simpl. now rewrite Hs.
Qed.

(** On NewsAggregator a successful response whose body is [null] leaves the
    page as it was before the submission: nothing loading, no data, no
    error. *)
Lemma aggregator_null_body :
  forall s : NewsAggregator.State,
    match NewsAggregator.handleSubmit s (FetchResponse 200 (BodyJson VNull))
    with
    | (_, _, s2) =>
        NewsAggregator.isLoading s2 = false /\
        NewsAggregator.data s2 = VNull /\
        NewsAggregator.error s2 = VNull
    end.
Proof. intros s. now repeat split. Qed.

(** ** C9: one card per entry *)

Lemma searcher_cards_all_ok {P : Platform} (items : list Article.t) :
  Forall (fun a => Article.authors a <> None) items ->
  all_ok (map NewsSearcher.ArticleCard items)
  = Ok (map NewsAggregator.ArticleCard items).
Proof.
  induction 1 as [ | a items Ha _ IH]; simpl; [reflexivity | ].
  destruct (Article.authors a) as [names | ] eqn:E; [ | contradiction].
  rewrite (searcher_card_is_aggregator_card a names E). simpl.
  now rewrite IH.
Qed.

(** C9. The result grids hold one card per entry of the list they are
    given, in the order of the list, and each article card links to the
    url of its own article.  On NewsSearcher this is for a list whose
    articles all have their authors, and an empty list shows the
    [No articles found] placeholder instead; an empty list of sources
    on SourcesGenerator likewise. *)
Theorem one_card_per_entry :
  forall P : Platform,
    (forall items : list Article.t,
       Forall (fun a => Article.authors a <> None) items ->
       exists cards,
         NewsSearcher.articles_grid items
         = Ok (Elem "div" []
                 (if (0 <? length items)%nat then cards
                  else [Elem "div" [] [Text "No articles found"]])) /\
         one_per_entry
           (fun a c => NewsSearcher.ArticleCard a = Ok c /\
                       anchors c = [Some (Article.url a)])
           items cards) /\
    (forall items : list Article.t,
       exists cards,
         NewsAggregator.articles_grid items = Elem "div" [] cards /\
         one_per_entry
           (fun a c => c = NewsAggregator.ArticleCard a /\
                       anchors c = [Some (Article.url a)])
           items cards) /\
    (forall items : list Source.t,
       exists cards,
         NewsAggregator.sources_grid items = Elem "div" [] cards /\
         one_per_entry (fun s c => c = NewsAggregator.SourceCard s)
           items cards) /\
    (forall items : list Source.t,
       exists cards,
         SourcesGenerator.sources_grid items
         = Elem "div" []
             (if (0 <? length items)%nat then cards
              else [Elem "div" [] [Text "No sources available"]]) /\
         one_per_entry (fun s c => c = SourcesGenerator.SourceCard s)
           items cards).
Proof.
  intros P. split; [ | split; [ | split]].
  - intros items Hall.
    exists (map NewsAggregator.ArticleCard items). split.
    + unfold NewsSearcher.articles_grid.
      rewrite (searcher_cards_all_ok items Hall).
      now destruct (0 <? length items)%nat.
    + apply one_per_entry_of_Forall2.
      induction Hall as [ | a items Ha _ IH]; constructor; [ | exact IH].
      destruct (Article.authors a) as [names | ] eqn:E; [ | contradiction].
      split; [exact (searcher_card_is_aggregator_card a names E) | ].
      apply aggregator_card_anchor.
  - intros items. exists (map NewsAggregator.ArticleCard items).
    split; [reflexivity | ].
    apply one_per_entry_of_Forall2.
    induction items; constructor; auto.
    split; [reflexivity | apply aggregator_card_anchor].
  - intros items. exists (map NewsAggregator.SourceCard items).
    split; [reflexivity | apply one_per_entry_map].
  - intros items. exists (map SourcesGenerator.SourceCard items).
    split; [ | apply one_per_entry_map].
    unfold SourcesGenerator.sources_grid.
    now destruct (0 <? length items)%nat.
Qed.

(** The C9 statement on a list of two articles. *)
Lemma one_card_per_entry_witness :
  let items := [bare_article (Some ["Ann"; "Bob"]); bare_article (Some [])] in
  Forall (fun a => Article.authors a <> None) items /\
  exists cards,
    @NewsSearcher.articles_grid sample_platform items
    = Ok (Elem "div" [] cards) /\
    length cards = 2.
Proof.
  intros items.
  assert (Hall : Forall (fun a => Article.authors a <> None) items)
    by (repeat constructor; discriminate).
  split; [exact Hall | ].
  destruct (proj1 (one_card_per_entry sample_platform) items Hall)
    as (cards & Hgrid & Hlen & _).
  exists cards. split; [exact Hgrid | exact Hlen].
Defined.

(** ** C7: one variant at a time *)

Lemma one_at_a_time_view (loading : bool) (payload error : value) :
  one_at_a_time loading payload error VNull ->
  exists v, classify loading payload error = Some v.
Proof.
  intros (Hl & Hp & He). unfold classify.
  destruct loading.
  - destruct (Hl eq_refl) as [-> ->]. now exists Loading.
  - destruct Hp as [-> | [Hp ->]]; simpl.
    + destruct He as [-> | He]; [now exists Idle | ].
      rewrite He. now exists (Error error).
    + rewrite Hp. now exists (Success payload).
Qed.

Lemma NewsSearcher_invariant_step (e : NewsSearcher.Event)
      (p p' : NewsSearcher.Page) :
  NewsSearcher_invariant p ->
  NewsSearcher.on_event e p = Some p' ->
  NewsSearcher_invariant p'.
Proof.
  intros (Hpend & Hl & Hp & He) Hstep.
  destruct p as [s n sent]. simpl in *.
  destruct e as [name v | | o]; simpl in Hstep.
  - destruct (NewsSearcher.isLoading s) eqn:Hload; [discriminate | ].
    injection Hstep as <-. unfold NewsSearcher_invariant. simpl.
    split; [ | split; [ | split]].
    + destruct (String.eqb name "url" && negb (is_empty v)
                && negb (startsWith v "http")); simpl; now rewrite Hload.
    + destruct (String.eqb name "url" && negb (is_empty v)
                && negb (startsWith v "http")); simpl; rewrite Hload;
        discriminate.
    + destruct (String.eqb name "url" && negb (is_empty v)
                && negb (startsWith v "http")); simpl;
        (destruct Hp as [-> | [Hp _]]; [now left | right; now split]).
    + now left.
  - destruct (NewsSearcher.isLoading s) eqn:Hload; [discriminate | ].
    destruct (NewsSearcher.required_filled (NewsSearcher.formData s)).
    + injection Hstep as <-.
      unfold NewsSearcher_invariant, one_at_a_time. simpl.
      rewrite Hpend. intuition congruence.
    + injection Hstep as <-.
      unfold NewsSearcher_invariant, one_at_a_time. simpl.
      rewrite Hload. intuition congruence.
  - destruct n as [ | n]; [discriminate | ].
    injection Hstep as <-.
    destruct (NewsSearcher.isLoading s) eqn:Hload; [ | discriminate].
    destruct (Hl eq_refl) as [Ha Herr].
    destruct (NewsSearcher_settle_cases o s Ha Herr) as (Hl' & _ & Hcases).
    unfold NewsSearcher_invariant, one_at_a_time.
    cbn [NewsSearcher.state NewsSearcher.pending]. rewrite Hl'.
    split; [now injection Hpend | ].
    split; [discriminate | ].
    destruct Hcases as [[Hta Hnull] | [Hte Hnull]].
    + split; [right; now split | left; exact Hnull].
    + split; [now left | now right].
Qed.

Lemma SourcesGenerator_invariant_step (e : SourcesGenerator.Event)
      (p p' : SourcesGenerator.Page) :
  SourcesGenerator_invariant p ->
  SourcesGenerator.on_event e p = Some p' ->
  SourcesGenerator_invariant p'.
Proof.
  intros (Hpend & Hl & Hp & He) Hstep.
  destruct p as [s pend sent]. simpl in *.
  destruct e as [name v | | now o]; simpl in Hstep.
  - destruct (SourcesGenerator.isLoading s) eqn:Hload; [discriminate | ].
    injection Hstep as <-. unfold SourcesGenerator_invariant. simpl.
    rewrite Hload.
    split; [exact Hpend | ].
    split; [discriminate | ].
    split; [ | now left].
    destruct Hp as [-> | [Hp _]]; [now left | right; now split].
  - destruct (SourcesGenerator.isLoading s) eqn:Hload; [discriminate | ].
    injection Hstep as <-.
    unfold SourcesGenerator_invariant, one_at_a_time. simpl.
    intuition congruence.
  - destruct pend as [submitted | ]; [ | discriminate].
    injection Hstep as <-.
    destruct (SourcesGenerator.isLoading s) eqn:Hload; [ | discriminate].
    destruct (Hl eq_refl) as [Ha Herr].
    destruct (SourcesGenerator_settle_cases submitted now o s Ha Herr)
      as (Hl' & _ & Hcases).
    unfold SourcesGenerator_invariant, one_at_a_time.
    cbn [SourcesGenerator.state SourcesGenerator.pending]. rewrite Hl'.
    split; [reflexivity | ].
    split; [discriminate | ].
    destruct Hcases as [[Hta Hnull] | [Hte Hnull]].
    + split; [right; now split | left; exact Hnull].
    + split; [now left | now right].
Qed.

Lemma HelloWorldGenerator_invariant_step (e : HelloWorldGenerator.Event)
      (p p' : HelloWorldGenerator.Page) :
  HelloWorldGenerator_invariant p ->
  HelloWorldGenerator.on_event e p = Some p' ->
  HelloWorldGenerator_invariant p'.
Proof.
  intros (Hpend & Hl & He & Ha & Hboth) Hstep.
  destruct p as [s n sent]. simpl in *.
  destruct e as [v | | o]; simpl in Hstep.
  - destruct (HelloWorldGenerator.isLoading s) eqn:Hload; [discriminate | ].
    injection Hstep as <-. unfold HelloWorldGenerator_invariant. simpl.
    rewrite Hload. split; [exact Hpend | ].
    split; [discriminate | ].
    split; [now left | ]. split; [exact Ha | now left].
  - destruct (HelloWorldGenerator.isLoading s) eqn:Hload; [discriminate | ].
    simpl in Hstep.
    destruct (is_empty (HelloWorldGenerator.question s)); [discriminate | ].
    unfold HelloWorldGenerator.handleSubmit_begin in Hstep.
    destruct (is_empty (trim (HelloWorldGenerator.question s)));
      injection Hstep as <-; unfold HelloWorldGenerator_invariant; simpl.
    + rewrite Hload. split; [exact Hpend | ].
      split; [discriminate | ].
      split; [now right | ]. split; [exact Ha | now right].
    + rewrite Hpend. split; [reflexivity | ].
      split; [now split | ].
      split; [now left | ]. split; now left.
  - destruct n as [ | n]; [discriminate | ].
    injection Hstep as <-.
    destruct (HelloWorldGenerator.isLoading s) eqn:Hload; [ | discriminate].
    destruct (Hl eq_refl) as [Hans Herr].
    destruct (HelloWorldGenerator_settle_cases o s Hans Herr)
      as (Hl' & _ & Hcases).
    unfold HelloWorldGenerator_invariant.
    cbn [HelloWorldGenerator.state HelloWorldGenerator.pending]. rewrite Hl'.
    split; [now injection Hpend | ].
    split; [discriminate | ].
    destruct Hcases as [[Hta Hnull] | [Hte Hempty]].
    + split; [left; exact Hnull | ]. split; [now right | now left].
    + split; [now right | ]. split; [now left | ].
      rewrite Hempty. discriminate.
Qed.

Lemma NewsSearcher_invariant_run (es : list NewsSearcher.Event) :
  forall p p' : NewsSearcher.Page,
    NewsSearcher_invariant p ->
    NewsSearcher.run es p = Some p' ->
    NewsSearcher_invariant p'.
Proof.
  induction es as [ | e es IH]; intros p p' Hinv Hrun; simpl in Hrun.
  - now injection Hrun as <-.
  - destruct (NewsSearcher.on_event e p) as [q | ] eqn:Hstep; [ | discriminate].
    exact (IH q p' (NewsSearcher_invariant_step e p q Hinv Hstep) Hrun).
Qed.

Lemma SourcesGenerator_invariant_run (es : list SourcesGenerator.Event) :
  forall p p' : SourcesGenerator.Page,
    SourcesGenerator_invariant p ->
    SourcesGenerator.run es p = Some p' ->
    SourcesGenerator_invariant p'.
Proof.
  induction es as [ | e es IH]; intros p p' Hinv Hrun; simpl in Hrun.
  - now injection Hrun as <-.
  - destruct (SourcesGenerator.on_event e p) as [q | ] eqn:Hstep;
      [ | discriminate].
    exact (IH q p' (SourcesGenerator_invariant_step e p q Hinv Hstep) Hrun).
Qed.

Lemma HelloWorldGenerator_invariant_run (es : list HelloWorldGenerator.Event) :
  forall p p' : HelloWorldGenerator.Page,
    HelloWorldGenerator_invariant p ->
    HelloWorldGenerator.run es p = Some p' ->
    HelloWorldGenerator_invariant p'.
Proof.
  induction es as [ | e es IH]; intros p p' Hinv Hrun; simpl in Hrun.
  - now injection Hrun as <-.
  - destruct (HelloWorldGenerator.on_event e p) as [q | ] eqn:Hstep;
      [ | discriminate].
    exact (IH q p' (HelloWorldGenerator_invariant_step e p q Hinv Hstep) Hrun).
Qed.

Lemma NewsAggregator_invariant_step (e : NewsAggregator.Event)
      (p p' : NewsAggregator.Page) :
  NewsAggregator_invariant p ->
  NewsAggregator.on_event e p = Some p' ->
  NewsAggregator_invariant p'.
Proof.
  intros (Hpend & Hl & He) Hstep.
  destruct p as [s n sent]. simpl in *.
  destruct e as [name v | | o]; simpl in Hstep.
  - destruct (NewsAggregator.isLoading s) eqn:Hload; [discriminate | ].
    injection Hstep as <-. unfold NewsAggregator_invariant. simpl.
    rewrite Hload. split; [exact Hpend | ].
    split; [discriminate | now left].
  - destruct (NewsAggregator.isLoading s) eqn:Hload; [discriminate | ].
    destruct (NewsAggregator.required_filled (NewsAggregator.formData s));
      injection Hstep as <-; unfold NewsAggregator_invariant; simpl.
    + rewrite Hpend. split; [reflexivity | ]. split; [now split | now left].
    + rewrite Hload. split; [exact Hpend | ]. split; [discriminate | exact He].
  - destruct n as [ | n]; [discriminate | ].
    injection Hstep as <-.
    destruct (NewsAggregator.isLoading s) eqn:Hload; [ | discriminate].
    destruct (Hl eq_refl) as [Hd Herr].
    unfold NewsAggregator_invariant, NewsAggregator.handleSubmit_settle.
    cbn [NewsAggregator.state NewsAggregator.pending].
    destruct (NewsAggregator.handleSubmit_try o) as [update | err] eqn:Htry.
    + destruct (NewsAggregator_try_ok _ _ Htry) as (status & body & _ & _ & ->).
      simpl.
      split; [now injection Hpend | ].
      split; [discriminate | left; exact Herr].
    + simpl. split; [now injection Hpend | ].
      split; [discriminate | ].
      right. split; [now apply truthy_js_or_text | exact Hd].
Qed.

Lemma NewsAggregator_invariant_run (es : list NewsAggregator.Event) :
  forall p p' : NewsAggregator.Page,
    NewsAggregator_invariant p ->
    NewsAggregator_run es p = Some p' ->
    NewsAggregator_invariant p'.
Proof.
  induction es as [ | e es IH]; intros p p' Hinv Hrun; simpl in Hrun.
  - now injection Hrun as <-.
  - destruct (NewsAggregator.on_event e p) as [q | ] eqn:Hstep;
      [ | discriminate].
    exact (IH q p' (NewsAggregator_invariant_step e p q Hinv Hstep) Hrun).
Qed.

Lemma NewsAggregator_invariant_start :
  NewsAggregator_invariant NewsAggregator.start.
Proof.
  unfold NewsAggregator_invariant. simpl.
  split; [reflexivity | ]. split; [discriminate | now left].
Qed.

Lemma NewsSearcher_invariant_start : NewsSearcher_invariant NewsSearcher.start.
Proof.
  unfold NewsSearcher_invariant, one_at_a_time. simpl. intuition congruence.
Qed.

Lemma SourcesGenerator_invariant_start :
  SourcesGenerator_invariant SourcesGenerator.start.
Proof.
  unfold SourcesGenerator_invariant, one_at_a_time. simpl. intuition congruence.
Qed.

Lemma HelloWorldGenerator_invariant_start :
  HelloWorldGenerator_invariant HelloWorldGenerator.start.
Proof.
  unfold HelloWorldGenerator_invariant. simpl.
  split; [reflexivity | ]. split; [discriminate | ].
  split; [now left | ]. split; [now left | discriminate].
Qed.

(** C7, as stated, fails on HelloWorldGenerator: after an answer has come
    back, submitting a blank question sets the validation error and leaves
    the answer where it is, so an error and a payload are active
    together. *)
Lemma validation_error_beside_answer :
  exists p,
    HelloWorldGenerator.run
      [HelloWorldGenerator.Change "q";
       HelloWorldGenerator.SubmitForm;
       HelloWorldGenerator.Settled
         (AxiosAnswered 200 (VObj [("answer", VStr "A")]));
       HelloWorldGenerator.Change " ";
       HelloWorldGenerator.SubmitForm]
      HelloWorldGenerator.start = Some p /\
    HelloWorldGenerator.isLoading (HelloWorldGenerator.state p) = false /\
    HelloWorldGenerator.answer (HelloWorldGenerator.state p) = VStr "A" /\
    HelloWorldGenerator.error (HelloWorldGenerator.state p)
    = VStr "Please enter a question" /\
    HelloWorldGenerator.view (HelloWorldGenerator.state p) = None.
Proof. eexists. repeat split. Qed.

(** The exclusion below rests on the controls being disabled while a
    request is out.  The handlers themselves take no such care: were
    NewsSearcher submitted twice before the first response, a search result
    followed by a response that carries a [message] would leave both the
    articles and the error set. *)
Lemma overlapping_submissions_keep_both :
  let found := FetchResponse 200 (BodyJson (VObj [("articles", VArr [])])) in
  let refused := FetchResponse 200 (BodyJson (VObj [("message", VStr "busy")])) in
  let s1 := fst (NewsSearcher.handleSubmit_begin NewsSearcher.initial) in
  let s2 := fst (NewsSearcher.handleSubmit_begin s1) in
  let s3 := NewsSearcher.handleSubmit_settle found s2 in
  let s4 := NewsSearcher.handleSubmit_settle refused s3 in
  NewsSearcher.articles s4 = VObj [("articles", VArr [])] /\
  NewsSearcher.error s4 = VStr "busy" /\
  NewsSearcher.view s4 = None.
Proof. repeat split. Qed.

(** C7 (amended). On NewsSearcher, SourcesGenerator and NewsAggregator, in
    every state the page can reach through its controls (input changes and
    submissions, both disabled while a request is out) and through settled
    requests, exactly one variant of the view state is active: loading, a
    non-null payload and a non-null error exclude one another, and with
    none of them the page is Idle.  On HelloWorldGenerator the same holds
    with one exception: the error [Please enter a question], which the
    handler sets for a blank question without clearing the answer, can
    stand beside an answer.  Loading excludes both there too, and a state
    with more than one variant active is a state that is not loading, has
    an answer, and has that very error. *)
Theorem one_variant_at_a_time :
  (forall p : NewsSearcher.Page,
     NewsSearcher.reachable p ->
     one_at_a_time (NewsSearcher.isLoading (NewsSearcher.state p))
       (NewsSearcher.articles (NewsSearcher.state p))
       (NewsSearcher.error (NewsSearcher.state p)) VNull /\
     exists v, NewsSearcher.view (NewsSearcher.state p) = Some v) /\
  (forall p : SourcesGenerator.Page,
     SourcesGenerator.reachable p ->
     one_at_a_time (SourcesGenerator.isLoading (SourcesGenerator.state p))
       (SourcesGenerator.sourcesData (SourcesGenerator.state p))
       (SourcesGenerator.error (SourcesGenerator.state p)) VNull /\
     exists v, SourcesGenerator.view (SourcesGenerator.state p) = Some v) /\
  (forall p : NewsAggregator.Page,
     NewsAggregator_reachable p ->
     let s := NewsAggregator.state p in
     (NewsAggregator.isLoading s = true ->
      NewsAggregator.data s = VNull /\ NewsAggregator.error s = VNull) /\
     (NewsAggregator.error s = VNull \/
      truthy (NewsAggregator.error s) = true /\ NewsAggregator.data s = VNull)
     /\ exists v, NewsAggregator.view s = Some v) /\
  (forall p : HelloWorldGenerator.Page,
     HelloWorldGenerator.reachable p ->
     let s := HelloWorldGenerator.state p in
     (HelloWorldGenerator.isLoading s = true ->
      HelloWorldGenerator.view s = Some Loading) /\
     (HelloWorldGenerator.error s <> VStr "Please enter a question" ->
      exists v, HelloWorldGenerator.view s = Some v) /\
     (HelloWorldGenerator.view s = None ->
      HelloWorldGenerator.isLoading s = false /\
      truthy (HelloWorldGenerator.answer s) = true /\
      HelloWorldGenerator.error s = VStr "Please enter a question")).
Proof.
  split; [ | split; [ | split]].
  - intros p [es Hrun].
    assert (Hinv : NewsSearcher_invariant p).
    { apply (NewsSearcher_invariant_run es NewsSearcher.start p); [ | exact Hrun].
      unfold NewsSearcher_invariant, one_at_a_time. simpl.
      intuition congruence. }
    destruct Hinv as [_ Hone]. split; [exact Hone | ].
    now apply one_at_a_time_view.
  - intros p [es Hrun].
    assert (Hinv : SourcesGenerator_invariant p).
    { apply (SourcesGenerator_invariant_run es SourcesGenerator.start p);
        [ | exact Hrun].
      unfold SourcesGenerator_invariant, one_at_a_time. simpl.
      intuition congruence. }
    destruct Hinv as [_ Hone]. split; [exact Hone | ].
    now apply one_at_a_time_view.
  - intros p [es Hrun] s.
    destruct (NewsAggregator_invariant_run es _ _
                NewsAggregator_invariant_start Hrun) as (_ & Hl & He).
    split; [exact Hl | ]. split; [exact He | ].
    unfold NewsAggregator.view, classify. fold s in Hl, He.
    destruct (NewsAggregator.isLoading s).
    + destruct (Hl eq_refl) as [-> ->]. now exists Loading.
    + destruct He as [-> | [He ->]]; simpl.
      * destruct (truthy (NewsAggregator.data s)); eexists; reflexivity.
      * rewrite He. eexists; reflexivity.
  - intros p [es Hrun] s.
    destruct (HelloWorldGenerator_invariant_run es _ _
                HelloWorldGenerator_invariant_start Hrun)
      as (_ & Hl & He & Ha & Hboth).
    fold s in Hl, He, Ha, Hboth.
    unfold HelloWorldGenerator.view, classify.
    split; [ | split].
    + intros Hload. destruct (Hl Hload) as [-> ->]. now rewrite Hload.
    + intros Hne.
      destruct (HelloWorldGenerator.isLoading s).
      * destruct (Hl eq_refl) as [-> ->]. now exists Loading.
      * destruct (truthy (HelloWorldGenerator.answer s)) eqn:Hta.
        -- destruct (Hboth eq_refl) as [-> | Hv]; [ | contradiction].
           eexists; reflexivity.
        -- destruct (truthy (HelloWorldGenerator.error s)); eexists;
             reflexivity.
    + destruct (HelloWorldGenerator.isLoading s).
      * destruct (Hl eq_refl) as [-> ->]. discriminate.
      * destruct (truthy (HelloWorldGenerator.answer s)) eqn:Hta.
        -- destruct (Hboth eq_refl) as [-> | Hv]; [discriminate | ].
           intros _. now repeat split.
        -- destruct (truthy (HelloWorldGenerator.error s)); discriminate.
Qed.

(** The C7 statement on a page that has searched and found one article. *)
Lemma one_variant_at_a_time_witness :
  NewsSearcher.reachable searched_page /\
  exists v, NewsSearcher.view (NewsSearcher.state searched_page) = Some v.
Proof.
  assert (Hreach : NewsSearcher.reachable searched_page).
  { exists [NewsSearcher.Change "url" "cnn.com";
            NewsSearcher.Change "query" "rain";
            NewsSearcher.SubmitForm;
            NewsSearcher.Settled
              (FetchResponse 200
                 (BodyJson (VObj [("articles", VArr [VObj []]);
                                  ("count", VNum "1")])))].
    reflexivity. }
  split; [exact Hreach | ].
  exact (proj2 (proj1 one_variant_at_a_time searched_page Hreach)).
Defined.

(* ================================================================== *)
(** * Properties beyond the claims *)

(** ** Strings *)

Lemma string_length_app (s t : string) :
  String.length (s ++ t) = String.length s + String.length t.
Proof. induction s as [ | c s IH]; simpl; [reflexivity | now rewrite IH]. Qed.

Lemma app_assoc_string (s t u : string) : (s ++ t) ++ u = s ++ (t ++ u).
Proof. induction s as [ | c s IH]; simpl; [reflexivity | now rewrite IH]. Qed.

Lemma app_inv_tail_string (s1 s2 t : string) :
  s1 ++ t = s2 ++ t -> s1 = s2.
Proof.
  revert s2. induction s1 as [ | c s1 IH]; intros [ | d s2] H; simpl in H.
  - reflexivity.
  - apply (f_equal String.length) in H. simpl in H.
    rewrite string_length_app in H. lia.
  - apply (f_equal String.length) in H. simpl in H.
    rewrite string_length_app in H. lia.
  - injection H as -> H. f_equal. now apply IH.
Qed.

Lemma all_chars_app (f : ascii -> bool) (s t : string) :
  all_chars f (s ++ t) = all_chars f s && all_chars f t.
Proof.
  induction s as [ | c s IH]; simpl; [reflexivity | ].
  now rewrite IH, andb_assoc.
Qed.

Lemma count_char_app (c : ascii) (s t : string) :
  count_char c (s ++ t) = count_char c s + count_char c t.
Proof. induction s as [ | d s IH]; simpl; [reflexivity | rewrite IH; lia]. Qed.

Lemma count_char_absent (f : ascii -> bool) (c : ascii) (s : string) :
  f c = false -> all_chars f s = true -> count_char c s = 0.
Proof.
  intros Hc. induction s as [ | d s IH]; simpl; [reflexivity | ].
  intros H. apply andb_prop in H as [Hd Hs].
  destruct (Ascii.eqb_spec c d) as [<- | _]; [congruence | ].
  now rewrite IH.
Qed.

(** ** [trim] *)

Lemma trimStart_clean (s : string) : starts_clean (trimStart s) = true.
Proof.
  induction s as [ | c s IH]; simpl; [reflexivity | ].
  destruct (is_white_space c) eqn:E; [exact IH | ].
  simpl. now rewrite E.
Qed.

Lemma trimStart_fixed (s : string) :
  starts_clean s = true -> trimStart s = s.
Proof.
  destruct s as [ | c s]; simpl; [reflexivity | ].
  now destruct (is_white_space c).
Qed.

Lemma trimEnd_clean (s : string) :
  starts_clean s = true -> starts_clean (trimEnd s) = true.
Proof.
  destruct s as [ | c s]; simpl; [reflexivity | ].
  destruct (is_white_space c) eqn:E; [discriminate | ].
  simpl. now rewrite E.
Qed.

Lemma trimEnd_idempotent (s : string) : trimEnd (trimEnd s) = trimEnd s.
Proof.
  induction s as [ | c s IH]; simpl; [reflexivity | ].
  destruct (is_white_space c && is_empty (trimEnd s)) eqn:E;
    [reflexivity | ].
  simpl. now rewrite IH, E.
Qed.

Lemma trimEnd_length (s : string) :
  String.length (trimEnd s) <= String.length s.
Proof.
  induction s as [ | c s IH]; simpl; [lia | ].
  destruct (is_white_space c && is_empty (trimEnd s)); simpl; lia.
Qed.

Lemma trimEnd_drops_last (s : string) (c : ascii) :
  is_white_space c = true ->
  trimEnd (s ++ String c EmptyString) = trimEnd s.
Proof.
  intros Hc. induction s as [ | d s IH]; simpl.
  - now rewrite Hc.
  - now rewrite IH.
Qed.

(** [trim] is idempotent, and what it returns neither begins nor ends with
    white space. *)
Lemma trim_shape (s : string) :
  trim (trim s) = trim s /\
  (forall c r, trim s = String c r -> is_white_space c = false) /\
  (forall r c, trim s = r ++ String c EmptyString -> is_white_space c = false).
Proof.
  unfold trim.
  pose proof (trimEnd_clean _ (trimStart_clean s)) as Hclean.
  split; [ | split].
  - rewrite (trimStart_fixed _ Hclean). apply trimEnd_idempotent.
  - intros c r E. rewrite E in Hclean. simpl in Hclean.
    now destruct (is_white_space c).
  - intros r c E. destruct (is_white_space c) eqn:Hc; [ | reflexivity].
    pose proof (trimEnd_idempotent (trimStart s)) as Hid.
    rewrite E in Hid. rewrite (trimEnd_drops_last r c Hc) in Hid.
    pose proof (trimEnd_length r) as Hlen.
    rewrite Hid, string_length_app in Hlen. simpl in Hlen. lia.
Qed.

(** ** Requests in flight *)

Lemma NewsSearcher_sent_step (e : NewsSearcher.Event)
      (p p' : NewsSearcher.Page) :
  NewsSearcher.on_event e p = Some p' ->
  length (NewsSearcher.sent p') + NewsSearcher.pending p
  = length (NewsSearcher.sent p) + NewsSearcher_settlements [e]
    + NewsSearcher.pending p'.
Proof.
  unfold NewsSearcher_settlements.
  destruct p as [s n sent]. destruct e as [name v | | o]; simpl.
  - destruct (NewsSearcher.isLoading s); [discriminate | ].
    intros [= <-]. simpl. lia.
  - destruct (NewsSearcher.isLoading s); [discriminate | ].
    destruct (NewsSearcher.required_filled (NewsSearcher.formData s));
      intros [= <-]; simpl; [rewrite List.length_app; simpl | ]; lia.
  - destruct n as [ | n]; [discriminate | ].
    intros [= <-]. simpl. lia.
Qed.

Lemma SourcesGenerator_sent_step (e : SourcesGenerator.Event)
      (p p' : SourcesGenerator.Page) :
  SourcesGenerator_invariant p ->
  SourcesGenerator.on_event e p = Some p' ->
  length (SourcesGenerator.sent p') + SourcesGenerator_pending_count p
  = length (SourcesGenerator.sent p) + SourcesGenerator_settlements [e]
    + SourcesGenerator_pending_count p'.
Proof.
  intros [Hpend _].
  destruct p as [s pend sent].
  unfold SourcesGenerator_pending_count, SourcesGenerator_settlements.
  destruct e as [name v | | now o]; simpl in *.
  - destruct (SourcesGenerator.isLoading s); [discriminate | ].
    intros [= <-]. simpl. lia.
  - destruct (SourcesGenerator.isLoading s); [discriminate | ].
    destruct pend as [f | ]; [discriminate | ].
    intros [= <-]. simpl. rewrite List.length_app. simpl. lia.
  - destruct pend as [f | ]; [ | discriminate].
    intros [= <-]. simpl. lia.
Qed.

Lemma HelloWorldGenerator_sent_step (e : HelloWorldGenerator.Event)
      (p p' : HelloWorldGenerator.Page) :
  HelloWorldGenerator.on_event e p = Some p' ->
  length (HelloWorldGenerator.sent p') + HelloWorldGenerator.pending p
  = length (HelloWorldGenerator.sent p) + HelloWorldGenerator_settlements [e]
    + HelloWorldGenerator.pending p'.
Proof.
  unfold HelloWorldGenerator_settlements.
  destruct p as [s n sent]. destruct e as [v | | o]; simpl.
  - destruct (HelloWorldGenerator.isLoading s); [discriminate | ].
    intros [= <-]. simpl. lia.
  - destruct (HelloWorldGenerator.isLoading s
              || is_empty (HelloWorldGenerator.question s)); [discriminate | ].
    unfold HelloWorldGenerator.handleSubmit_begin.
    destruct (is_empty (trim (HelloWorldGenerator.question s)));
      intros [= <-]; simpl; [ | rewrite List.length_app; simpl]; lia.
  - destruct n as [ | n]; [discriminate | ].
    intros [= <-]. simpl. lia.
Qed.

Lemma NewsAggregator_sent_step (e : NewsAggregator.Event)
      (p p' : NewsAggregator.Page) :
  NewsAggregator.on_event e p = Some p' ->
  length (NewsAggregator.sent p') + NewsAggregator.pending p
  = length (NewsAggregator.sent p) + NewsAggregator_settlements [e]
    + NewsAggregator.pending p'.
Proof.
  unfold NewsAggregator_settlements.
  destruct p as [s n sent]. destruct e as [name v | | o]; simpl.
  - destruct (NewsAggregator.isLoading s); [discriminate | ].
    intros [= <-]. simpl. lia.
  - destruct (NewsAggregator.isLoading s); [discriminate | ].
    destruct (NewsAggregator.required_filled (NewsAggregator.formData s));
      intros [= <-]; simpl; [rewrite List.length_app; simpl | ]; lia.
  - destruct n as [ | n]; [discriminate | ].
    intros [= <-]. simpl. lia.
Qed.

Lemma NewsSearcher_sent_run (es : list NewsSearcher.Event) :
  forall p p' : NewsSearcher.Page,
    NewsSearcher.run es p = Some p' ->
    length (NewsSearcher.sent p') + NewsSearcher.pending p
    = length (NewsSearcher.sent p) + NewsSearcher_settlements es
      + NewsSearcher.pending p'.
Proof.
  induction es as [ | e es IH]; intros p p' Hrun; simpl in Hrun.
  - injection Hrun as <-. unfold NewsSearcher_settlements. simpl. lia.
  - destruct (NewsSearcher.on_event e p) as [q | ] eqn:Hstep; [ | discriminate].
    pose proof (NewsSearcher_sent_step e p q Hstep) as H1.
    pose proof (IH q p' Hrun) as H2.
    unfold NewsSearcher_settlements in *. simpl in *.
    destruct e; simpl in *; lia.
Qed.

Lemma SourcesGenerator_sent_run (es : list SourcesGenerator.Event) :
  forall p p' : SourcesGenerator.Page,
    SourcesGenerator_invariant p ->
    SourcesGenerator.run es p = Some p' ->
    length (SourcesGenerator.sent p') + SourcesGenerator_pending_count p
    = length (SourcesGenerator.sent p) + SourcesGenerator_settlements es
      + SourcesGenerator_pending_count p'.
Proof.
  induction es as [ | e es IH]; intros p p' Hinv Hrun; simpl in Hrun.
  - injection Hrun as <-. unfold SourcesGenerator_settlements. simpl. lia.
  - destruct (SourcesGenerator.on_event e p) as [q | ] eqn:Hstep;
      [ | discriminate].
    pose proof (SourcesGenerator_sent_step e p q Hinv Hstep) as H1.
    pose proof (IH q p' (SourcesGenerator_invariant_step e p q Hinv Hstep) Hrun)
      as H2.
    unfold SourcesGenerator_settlements in *. simpl in *.
    destruct e; simpl in *; lia.
Qed.

Lemma HelloWorldGenerator_sent_run (es : list HelloWorldGenerator.Event) :
  forall p p' : HelloWorldGenerator.Page,
    HelloWorldGenerator.run es p = Some p' ->
    length (HelloWorldGenerator.sent p') + HelloWorldGenerator.pending p
    = length (HelloWorldGenerator.sent p) + HelloWorldGenerator_settlements es
      + HelloWorldGenerator.pending p'.
Proof.
  induction es as [ | e es IH]; intros p p' Hrun; simpl in Hrun.
  - injection Hrun as <-. unfold HelloWorldGenerator_settlements. simpl. lia.
  - destruct (HelloWorldGenerator.on_event e p) as [q | ] eqn:Hstep;
      [ | discriminate].
    pose proof (HelloWorldGenerator_sent_step e p q Hstep) as H1.
    pose proof (IH q p' Hrun) as H2.
    unfold HelloWorldGenerator_settlements in *. simpl in *.
    destruct e; simpl in *; lia.
Qed.

Lemma NewsAggregator_sent_run (es : list NewsAggregator.Event) :
  forall p p' : NewsAggregator.Page,
    NewsAggregator_run es p = Some p' ->
    length (NewsAggregator.sent p') + NewsAggregator.pending p
    = length (NewsAggregator.sent p) + NewsAggregator_settlements es
      + NewsAggregator.pending p'.
Proof.
  induction es as [ | e es IH]; intros p p' Hrun; simpl in Hrun.
  - injection Hrun as <-. unfold NewsAggregator_settlements. simpl. lia.
  - destruct (NewsAggregator.on_event e p) as [q | ] eqn:Hstep; [ | discriminate].
    pose proof (NewsAggregator_sent_step e p q Hstep) as H1.
    pose proof (IH q p' Hrun) as H2.
    unfold NewsAggregator_settlements in *. simpl in *.
    destruct e; simpl in *; lia.
Qed.

(** X1. On every page, whatever the user does, the requests sent so far
    are the requests that have settled plus the request that is out, and a
    request is out exactly while [isLoading] is set: the disabled controls
    keep a second request from leaving while the first is pending, and no
    request settles twice. *)
Theorem one_request_at_a_time :
  (forall (es : list NewsSearcher.Event) (p : NewsSearcher.Page),
     NewsSearcher.run es NewsSearcher.start = Some p ->
     length (NewsSearcher.sent p)
     = NewsSearcher_settlements es + NewsSearcher.pending p /\
     NewsSearcher.pending p
     = (if NewsSearcher.isLoading (NewsSearcher.state p) then 1 else 0)) /\
  (forall (es : list SourcesGenerator.Event) (p : SourcesGenerator.Page),
     SourcesGenerator.run es SourcesGenerator.start = Some p ->
     length (SourcesGenerator.sent p)
     = SourcesGenerator_settlements es + SourcesGenerator_pending_count p /\
     SourcesGenerator_pending_count p
     = (if SourcesGenerator.isLoading (SourcesGenerator.state p)
        then 1 else 0)) /\
  (forall (es : list HelloWorldGenerator.Event) (p : HelloWorldGenerator.Page),
     HelloWorldGenerator.run es HelloWorldGenerator.start = Some p ->
     length (HelloWorldGenerator.sent p)
     = HelloWorldGenerator_settlements es + HelloWorldGenerator.pending p /\
     HelloWorldGenerator.pending p
     = (if HelloWorldGenerator.isLoading (HelloWorldGenerator.state p)
        then 1 else 0)) /\
  (forall (es : list NewsAggregator.Event) (p : NewsAggregator.Page),
     NewsAggregator_run es NewsAggregator.start = Some p ->
     length (NewsAggregator.sent p)
     = NewsAggregator_settlements es + NewsAggregator.pending p /\
     NewsAggregator.pending p
     = (if NewsAggregator.isLoading (NewsAggregator.state p) then 1 else 0)).
Proof.
  split; [ | split; [ | split]].
  - intros es p Hrun. split.
    + pose proof (NewsSearcher_sent_run es _ _ Hrun) as H. simpl in H. lia.
    + exact (proj1 (NewsSearcher_invariant_run es _ _
                      NewsSearcher_invariant_start Hrun)).
  - intros es p Hrun. split.
    + pose proof (SourcesGenerator_sent_run es _ _
                    SourcesGenerator_invariant_start Hrun) as H.
      unfold SourcesGenerator_pending_count in H at 1. simpl in H. lia.
    + exact (proj1 (SourcesGenerator_invariant_run es _ _
                      SourcesGenerator_invariant_start Hrun)).
  - intros es p Hrun. split.
    + pose proof (HelloWorldGenerator_sent_run es _ _ Hrun) as H.
      simpl in H. lia.
    + exact (proj1 (HelloWorldGenerator_invariant_run es _ _
                      HelloWorldGenerator_invariant_start Hrun)).
  - intros es p Hrun. split.
    + pose proof (NewsAggregator_sent_run es _ _ Hrun) as H. simpl in H. lia.
    + exact (proj1 (NewsAggregator_invariant_run es _ _
                      NewsAggregator_invariant_start Hrun)).
Qed.

(** The X1 statement on a search that came back. *)
Lemma one_request_at_a_time_witness :
  let es := [NewsSearcher.Change "url" "cnn.com";
             NewsSearcher.Change "query" "rain";
             NewsSearcher.SubmitForm;
             NewsSearcher.Settled
               (FetchResponse 200
                  (BodyJson (VObj [("articles", VArr [VObj []]);
                                   ("count", VNum "1")])))] in
  NewsSearcher.run es NewsSearcher.start = Some searched_page /\
  length (NewsSearcher.sent searched_page)
  = NewsSearcher_settlements es + NewsSearcher.pending searched_page.
Proof.
  intros es.
  assert (Hrun : NewsSearcher.run es NewsSearcher.start = Some searched_page)
    by reflexivity.
  split; [exact Hrun | ].
  exact (proj1 (proj1 one_request_at_a_time es searched_page Hrun)).
Defined.

(** ** What the pages send *)

Lemma HelloWorldGenerator_asks_step (e : HelloWorldGenerator.Event)
      (p p' : HelloWorldGenerator.Page) :
  Forall asks_trimmed_question (HelloWorldGenerator.sent p) ->
  HelloWorldGenerator.on_event e p = Some p' ->
  Forall asks_trimmed_question (HelloWorldGenerator.sent p').
Proof.
  intros Hall. destruct p as [s n sent]. destruct e as [v | | o]; simpl in *.
  - destruct (HelloWorldGenerator.isLoading s); [discriminate | ].
    now intros [= <-].
  - destruct (HelloWorldGenerator.isLoading s
              || is_empty (HelloWorldGenerator.question s)); [discriminate | ].
    unfold HelloWorldGenerator.handleSubmit_begin.
    destruct (is_empty (trim (HelloWorldGenerator.question s))) eqn:Hq;
      intros [= <-]; simpl; [exact Hall | ].
    apply Forall_app. split; [exact Hall | ].
    constructor; [ | constructor].
    split; [reflexivity | ].
    exists (trim (HelloWorldGenerator.question s)).
    split; [reflexivity | ]. split.
    + intros E. rewrite E in Hq. discriminate.
    + apply trim_shape.
  - destruct n as [ | n]; [discriminate | ].
    now intros [= <-].
Qed.

(** X2. Every request HelloWorldGenerator ever sends goes to [/ask] with
    one parameter, [question], holding the trimmed text of the input: it is
    never empty and neither begins nor ends with white space. *)
Theorem questions_are_trimmed :
  forall p : HelloWorldGenerator.Page,
    HelloWorldGenerator.reachable p ->
    Forall
      (fun r =>
         asks_trimmed_question r /\
         forall q, HelloWorldGenerator.get_params r = [("question", q)] ->
                   (forall c t, q = String c t -> is_white_space c = false) /\
                   (forall t c, q = t ++ String c EmptyString ->
                                is_white_space c = false))
      (HelloWorldGenerator.sent p).
Proof.
  intros p [es Hrun].
  assert (Hall : Forall asks_trimmed_question (HelloWorldGenerator.sent p)).
  { revert Hrun.
    assert (Hstart : Forall asks_trimmed_question
                       (HelloWorldGenerator.sent HelloWorldGenerator.start))
      by constructor.
    revert Hstart. generalize HelloWorldGenerator.start.
    induction es as [ | e es IH]; intros p0 H0 Hrun; simpl in Hrun.
    - now injection Hrun as <-.
    - destruct (HelloWorldGenerator.on_event e p0) as [q | ] eqn:Hstep;
        [ | discriminate].
      exact (IH q (HelloWorldGenerator_asks_step e p0 q H0 Hstep) Hrun). }
  apply Forall_forall. intros r Hin.
  pose proof (proj1 (Forall_forall _ _) Hall r Hin) as Hr.
  split; [exact Hr | ].
  intros q Hq. destruct Hr as (_ & q' & Hq' & _ & Htrim).
  rewrite Hq in Hq'. injection Hq' as <-.
  destruct (trim_shape q) as (_ & Hfirst & Hlast).
  rewrite Htrim in Hfirst, Hlast. split; assumption.
Qed.

(** The X2 statement on a page that asked [  why?  ]. *)
Lemma questions_are_trimmed_witness :
  HelloWorldGenerator.reachable answered_page /\
  HelloWorldGenerator.sent answered_page
  = [{| HelloWorldGenerator.get_url := "http://localhost:8002/ask";
        HelloWorldGenerator.get_params := [("question", "why?")] |}] /\
  Forall asks_trimmed_question (HelloWorldGenerator.sent answered_page).
Proof.
  assert (Hreach : HelloWorldGenerator.reachable answered_page).
  { exists [HelloWorldGenerator.Change "  why?  ";
            HelloWorldGenerator.SubmitForm;
            HelloWorldGenerator.Settled
              (AxiosAnswered 200 (VObj [("answer", VStr "because")]))].
    reflexivity. }
  split; [exact Hreach | ]. split; [reflexivity | ].
  pose proof (questions_are_trimmed answered_page Hreach) as H.
  apply Forall_forall. intros r Hin.
  exact (proj1 (proj1 (Forall_forall _ _) H r Hin)).
Defined.

Lemma handleInputChange_keeps_url_absolute (name v : string)
      (s : NewsSearcher.State) :
  absolute_or_empty (NewsSearcher.url (NewsSearcher.formData s)) = true ->
  absolute_or_empty
    (NewsSearcher.url
       (NewsSearcher.formData (NewsSearcher.handleInputChange name v s)))
  = true.
Proof.
  intros Hs. unfold NewsSearcher.handleInputChange, NewsSearcher.set_field.
  destruct (String.eqb name "url") eqn:Hn; simpl.
  - destruct (is_empty v) eqn:Hv; simpl.
    + unfold absolute_or_empty. now rewrite Hv.
    + destruct (startsWith v "http") eqn:Hh; simpl.
      * unfold absolute_or_empty. now rewrite Hh, orb_true_r.
      * reflexivity.
  - destruct (String.eqb name "query"); [exact Hs | ].
    destruct (String.eqb name "method"); exact Hs.
Qed.

Lemma NewsSearcher_settle_formData (o : fetch_outcome) (s : NewsSearcher.State) :
  NewsSearcher.formData (NewsSearcher.handleSubmit_settle o s)
  = NewsSearcher.formData s.
Proof.
  unfold NewsSearcher.handleSubmit_settle.
  destruct (NewsSearcher.handleSubmit_try o) as [update | e] eqn:Htry.
  - now destruct (NewsSearcher_try_ok _ _ Htry) as [[props ->] | [m [_ ->]]].
  - reflexivity.
Qed.

Lemma NewsSearcher_url_step (e : NewsSearcher.Event)
      (p p' : NewsSearcher.Page) :
  absolute_or_empty
    (NewsSearcher.url (NewsSearcher.formData (NewsSearcher.state p))) = true /\
  Forall searches_absolute_url (NewsSearcher.sent p) ->
  NewsSearcher.on_event e p = Some p' ->
  absolute_or_empty
    (NewsSearcher.url (NewsSearcher.formData (NewsSearcher.state p'))) = true /\
  Forall searches_absolute_url (NewsSearcher.sent p').
Proof.
  intros [Hurl Hall]. destruct p as [s n sent].
  destruct e as [name v | | o]; simpl in *.
  - destruct (NewsSearcher.isLoading s); [discriminate | ].
    intros [= <-]. simpl. split; [ | exact Hall].
    now apply handleInputChange_keeps_url_absolute.
  - destruct (NewsSearcher.isLoading s); [discriminate | ].
    destruct (NewsSearcher.required_filled (NewsSearcher.formData s)) eqn:Hreq;
      intros [= <-]; simpl; [ | now split].
    split; [exact Hurl | ].
    apply Forall_app. split; [exact Hall | ].
    constructor; [ | constructor].
    exists (NewsSearcher.formData s). split; [reflexivity | ].
    unfold NewsSearcher.required_filled in Hreq.
    apply andb_prop in Hreq as [Hu Hq].
    unfold absolute_or_empty in Hurl.
    destruct (is_empty (NewsSearcher.url (NewsSearcher.formData s)));
      [discriminate | ].
    split; [exact Hurl | ].
    intros E. rewrite E in Hq. discriminate.
  - destruct n as [ | n]; [discriminate | ].
    intros [= <-]. cbn [NewsSearcher.state NewsSearcher.sent].
    rewrite NewsSearcher_settle_formData. now split.
Qed.

(** X3. On NewsSearcher the url field never holds a relative address: after
    any sequence of events it is empty or begins with [http], because a
    value typed without a scheme is stored with [https://] (and [www.],
    unless it has it) in front.  Every request the page sends is therefore
    the search request of a form whose url begins with [http] and whose
    query is not empty. *)
Theorem searched_urls_are_absolute :
  (forall (v : string) (s : NewsSearcher.State),
     is_empty v = false -> startsWith v "http" = false ->
     NewsSearcher.url
       (NewsSearcher.formData (NewsSearcher.handleInputChange "url" v s))
     = "https://" ++ (if startsWith v "www." then EmptyString else "www.") ++ v)
  /\
  (forall p : NewsSearcher.Page,
     NewsSearcher.reachable p ->
     absolute_or_empty
       (NewsSearcher.url (NewsSearcher.formData (NewsSearcher.state p))) = true
     /\ Forall searches_absolute_url (NewsSearcher.sent p)).
Proof.
  split.
  - intros v s Hv Hh. unfold NewsSearcher.handleInputChange. simpl.
    now rewrite Hv, Hh.
  - intros p [es Hrun]. revert Hrun.
    assert (Hstart :
              absolute_or_empty
                (NewsSearcher.url
                   (NewsSearcher.formData
                      (NewsSearcher.state NewsSearcher.start))) = true /\
              Forall searches_absolute_url
                (NewsSearcher.sent NewsSearcher.start))
      by (split; [reflexivity | constructor]).
    revert Hstart. generalize NewsSearcher.start.
    induction es as [ | e es IH]; intros p0 H0 Hrun; simpl in Hrun.
    + now injection Hrun as <-.
    + destruct (NewsSearcher.on_event e p0) as [q | ] eqn:Hstep;
        [ | discriminate].
      exact (IH q (NewsSearcher_url_step e p0 q H0 Hstep) Hrun).
Qed.

(** The X3 statement on [cnn.com] and on the page that searched it. *)
Lemma searched_urls_are_absolute_witness :
  (is_empty "cnn.com" = false /\ startsWith "cnn.com" "http" = false /\
   NewsSearcher.reachable searched_page) /\
  NewsSearcher.url
    (NewsSearcher.formData
       (NewsSearcher.handleInputChange "url" "cnn.com" NewsSearcher.initial))
  = "https://www.cnn.com" /\
  Forall searches_absolute_url (NewsSearcher.sent searched_page).
Proof.
  assert (Hreach : NewsSearcher.reachable searched_page).
  { exists [NewsSearcher.Change "url" "cnn.com";
            NewsSearcher.Change "query" "rain";
            NewsSearcher.SubmitForm;
            NewsSearcher.Settled
              (FetchResponse 200
                 (BodyJson (VObj [("articles", VArr [VObj []]);
                                  ("count", VNum "1")])))].
    reflexivity. }
  split; [repeat split; exact Hreach | ].
  split.
  - exact (proj1 searched_urls_are_absolute "cnn.com" NewsSearcher.initial
             eq_refl eq_refl).
  - exact (proj2 (proj2 searched_urls_are_absolute searched_page Hreach)).
Defined.

Lemma NewsAggregator_topic_step (e : NewsAggregator.Event)
      (p p' : NewsAggregator.Page) :
  Forall coordinates_topic (NewsAggregator.sent p) ->
  NewsAggregator.on_event e p = Some p' ->
  Forall coordinates_topic (NewsAggregator.sent p').
Proof.
  intros Hall. destruct p as [s n sent]. destruct e as [name v | | o];
    simpl in *.
  - destruct (NewsAggregator.isLoading s); [discriminate | ].
    now intros [= <-].
  - destruct (NewsAggregator.isLoading s); [discriminate | ].
    destruct (NewsAggregator.required_filled (NewsAggregator.formData s))
      eqn:Hreq; intros [= <-]; simpl; [ | exact Hall].
    apply Forall_app. split; [exact Hall | ].
    constructor; [ | constructor].
    exists (NewsAggregator.topic (NewsAggregator.formData s)).
    split; [ | reflexivity].
    intros E. unfold NewsAggregator.required_filled in Hreq.
    rewrite E in Hreq. discriminate.
  - destruct n as [ | n]; [discriminate | ].
    now intros [= <-].
Qed.

(** X4. NewsAggregator, which the claims on the view state leave out, keeps
    the same discipline through its controls: in every state the page can
    reach, loading goes with neither data nor error, an error goes without
    data, and every request sent was built from a topic that is not
    empty. *)
Theorem aggregator_states_are_exclusive :
  forall p : NewsAggregator.Page,
    NewsAggregator_reachable p ->
    let s := NewsAggregator.state p in
    (NewsAggregator.isLoading s = true ->
     NewsAggregator.data s = VNull /\ NewsAggregator.error s = VNull) /\
    (NewsAggregator.error s <> VNull ->
     truthy (NewsAggregator.error s) = true /\ NewsAggregator.data s = VNull) /\
    Forall coordinates_topic (NewsAggregator.sent p).
Proof.
  intros p [es Hrun] s.
  destruct (NewsAggregator_invariant_run es _ _
              NewsAggregator_invariant_start Hrun) as (_ & Hl & He).
  split; [exact Hl | ]. split.
  - intros Hne. destruct He as [He | He]; [contradiction | exact He].
  - revert Hrun.
    assert (Hstart : Forall coordinates_topic
                       (NewsAggregator.sent NewsAggregator.start))
      by constructor.
    revert Hstart. generalize NewsAggregator.start.
    clear. induction es as [ | e es IH]; intros p0 H0 Hrun; simpl in Hrun.
    + now injection Hrun as <-.
    + destruct (NewsAggregator.on_event e p0) as [q | ] eqn:Hstep;
        [ | discriminate].
      exact (IH q (NewsAggregator_topic_step e p0 q H0 Hstep) Hrun).
Qed.

(** The X4 statement on a page whose request failed. *)
Lemma aggregator_states_are_exclusive_witness :
  (NewsAggregator_reachable failed_page /\
   NewsAggregator.error (NewsAggregator.state failed_page) <> VNull) /\
  NewsAggregator.data (NewsAggregator.state failed_page) = VNull /\
  NewsAggregator.sent failed_page
  = [fetch_get "http://localhost:8003/coordinate?question=a%26b"].
Proof.
  assert (Hreach : NewsAggregator_reachable failed_page).
  { exists [NewsAggregator.Change "topic" "a&b";
            NewsAggregator.SubmitForm;
            NewsAggregator.Settled (FetchRejected "Failed to fetch")].
    reflexivity. }
  assert (Hne : NewsAggregator.error (NewsAggregator.state failed_page)
                <> VNull) by discriminate.
  split; [split; assumption | ].
  split; [ | reflexivity].
  exact (proj2 (proj1 (proj2 (aggregator_states_are_exclusive
                                failed_page Hreach)) Hne)).
Defined.

(** ** Responses that are not what the page expects *)

(** X5. A non-2xx response whose body is an object without a usable
    [error] (missing, or falsy) ends in the Error state with the page's own
    text, which names the status: [Server error (status). Please try again.]
    on NewsSearcher and SourcesGenerator, [Server error (status)] on
    NewsAggregator, [Server error: status] on HelloWorldGenerator. *)
Theorem server_error_names_the_status :
  forall (status : nat) (props : list (string * value)),
    response_ok status = false ->
    truthy (lookup "error" props) = false ->
    (forall s : NewsSearcher.State,
       NewsSearcher.error
         (NewsSearcher.handleSubmit_settle
            (FetchResponse status (BodyJson (VObj props))) s)
       = VStr ("Server error (" ++ nat_to_string status
               ++ "). Please try again.")) /\
    (forall (f : SourcesGenerator.FormData) (now : string)
            (s : SourcesGenerator.State),
       SourcesGenerator.error
         (SourcesGenerator.handleSubmit_settle f now
            (FetchResponse status (BodyJson (VObj props))) s)
       = VStr ("Server error (" ++ nat_to_string status
               ++ "). Please try again.")) /\
    (forall s : NewsAggregator.State,
       NewsAggregator.error
         (NewsAggregator.handleSubmit_settle
            (FetchResponse status (BodyJson (VObj props))) s)
       = VStr ("Server error (" ++ nat_to_string status ++ ")")) /\
    (forall s : HelloWorldGenerator.State,
       HelloWorldGenerator.error
         (HelloWorldGenerator.handleSubmit_settle
            (AxiosAnswered status (VObj props)) s)
       = VStr ("Server error: " ++ nat_to_string status)).
Proof.
  intros status props Hst He.
  split; [ | split; [ | split]]; intros.
  - unfold NewsSearcher.handleSubmit_settle, NewsSearcher.handleSubmit_try.
    simpl. rewrite Hst. simpl. now evaluate_with He.
  - unfold SourcesGenerator.handleSubmit_settle,
      SourcesGenerator.handleSubmit_try.
    simpl. rewrite Hst. simpl. now evaluate_with He.
  - unfold NewsAggregator.handleSubmit_settle, NewsAggregator.handleSubmit_try.
    simpl. rewrite Hst. simpl. now evaluate_with He.
  - unfold HelloWorldGenerator.handleSubmit_settle,
      HelloWorldGenerator.handleSubmit_try.
    simpl. rewrite Hst. simpl. now evaluate_with He.
Qed.

(** The X5 statement on a 503 with an empty object. *)
Lemma server_error_names_the_status_witness :
  (response_ok 503 = false /\ truthy (lookup "error" []) = false) /\
  NewsSearcher.error
    (NewsSearcher.handleSubmit_settle
       (FetchResponse 503 (BodyJson (VObj []))) NewsSearcher.initial)
  = VStr "Server error (503). Please try again." /\
  HelloWorldGenerator.error
    (HelloWorldGenerator.handleSubmit_settle
       (AxiosAnswered 503 (VObj [])) HelloWorldGenerator.initial)
  = VStr "Server error: 503".
Proof.
  split; [now split | ].
  pose proof (server_error_names_the_status 503 [] eq_refl eq_refl)
    as (Hn & _ & _ & Hh).
  split; [exact (Hn NewsSearcher.initial) | exact (Hh HelloWorldGenerator.initial)].
Defined.

Lemma NewsSearcher_try_success_body (status : nat)
      (props : list (string * value)) :
  response_ok status = true ->
  NewsSearcher.handleSubmit_try (FetchResponse status (BodyJson (VObj props)))
  = if Array_isArray (lookup "articles" props) then
      Ok (NewsSearcher.setArticles (VObj props))
    else if truthy (lookup "message" props) then
      Ok (NewsSearcher.setError (lookup "message" props))
    else Throw (JsError "Invalid response format from server").
Proof.
  intros Hok. unfold NewsSearcher.handleSubmit_try. simpl.
  rewrite Hok. simpl.
  destruct (lookup "articles" props); simpl; rewrite ?andb_false_r;
    reflexivity.
Qed.

(** X6. How NewsSearcher reads a 2xx response whose body is an object: an
    [articles] array makes it a result, kept whole, whatever else the body
    holds; without one, a truthy [message] is shown as the error; without
    either the error is [Invalid response format from server].  In the two
    error cases nothing is kept as a result. *)
Theorem searcher_reads_success_body :
  forall (status : nat) (props : list (string * value))
         (s : NewsSearcher.State),
    response_ok status = true ->
    NewsSearcher.articles s = VNull -> NewsSearcher.error s = VNull ->
    let s' := NewsSearcher.handleSubmit_settle
                (FetchResponse status (BodyJson (VObj props))) s in
    if Array_isArray (lookup "articles" props) then
      NewsSearcher.view s' = Some (Success (VObj props))
    else if truthy (lookup "message" props) then
      NewsSearcher.view s' = Some (Error (lookup "message" props))
    else
      NewsSearcher.view s'
      = Some (Error (VStr "Invalid response format from server")).
Proof.
  intros status props [a l e f] Hok Ha He. simpl in Ha, He. subst a e.
  unfold NewsSearcher.handleSubmit_settle, NewsSearcher.view.
  rewrite (NewsSearcher_try_success_body status props Hok).
  destruct (Array_isArray (lookup "articles" props)); [reflexivity | ].
  destruct (truthy (lookup "message" props)) eqn:Hm; [ | reflexivity].
  unfold classify. simpl. now rewrite Hm.
Qed.

(** The X6 statement on a body that only carries a message. *)
Lemma searcher_reads_success_body_witness :
  let s := fst (NewsSearcher.handleSubmit_begin NewsSearcher.initial) in
  (response_ok 200 = true /\ NewsSearcher.articles s = VNull /\
   NewsSearcher.error s = VNull) /\
  NewsSearcher.view
    (NewsSearcher.handleSubmit_settle
       (FetchResponse 200 (BodyJson (VObj [("message", VStr "No results")])))
       s)
  = Some (Error (VStr "No results")).
Proof.
  intros s. split; [repeat split | ].
  exact (searcher_reads_success_body 200 [("message", VStr "No results")] s
           eq_refl eq_refl eq_refl).
Defined.

(** X7. How SourcesGenerator reads a 2xx response whose body is an object:
    only a non-empty array under [answer.sources] is a result, stored with
    the submitted topic and the time of arrival.  A falsy [answer] or a
    falsy [answer.sources] gives [No sources found. Please try a different
    topic.]; anything else that is not a non-empty array, the empty array
    included, gives [No sources available for this topic. Please try a
    different search.] *)
Theorem sources_reads_success_body :
  forall (status : nat) (props : list (string * value))
         (f : SourcesGenerator.FormData) (now : string)
         (s : SourcesGenerator.State),
    response_ok status = true ->
    let s' := SourcesGenerator.handleSubmit_settle f now
                (FetchResponse status (BodyJson (VObj props))) s in
    let sources := get_opt (lookup "answer" props) "sources" in
    match sources with
    | VArr (_ :: _) =>
        SourcesGenerator.sourcesData s'
        = VObj [("topic", VStr (SourcesGenerator.topic_or f "General News"));
                ("created_at", VStr now); ("sources", sources)] /\
        SourcesGenerator.error s' = SourcesGenerator.error s
    | _ =>
        SourcesGenerator.sourcesData s' = VNull /\
        SourcesGenerator.error s'
        = VStr (if truthy sources
                then "No sources available for this topic. Please try a different search."
                else "No sources found. Please try a different topic.")
    end.
Proof.
  intros status props f now s Hok.
  unfold SourcesGenerator.handleSubmit_settle,
    SourcesGenerator.handleSubmit_try.
  simpl. rewrite Hok. simpl.
  destruct (lookup "answer" props) as [ | | [] | r | t | items | ps];
    simpl; try (now split).
  - destruct (negb (String.eqb r "0" || String.eqb r "NaN")); simpl; now split.
  - destruct (is_empty t); simpl; now split.
  - destruct (lookup "sources" ps) as [ | | [] | r | t | [ | x items] | qs];
      simpl; try (now split).
    + destruct (negb (String.eqb r "0" || String.eqb r "NaN")); simpl;
        now split.
    + destruct (is_empty t); simpl; now split.
Qed.

(** The X7 statement on an answer with an empty list of sources. *)
Lemma sources_reads_success_body_witness :
  response_ok 200 = true /\
  SourcesGenerator.error
    (SourcesGenerator.handleSubmit_settle
       (SourcesGenerator.formData SourcesGenerator.initial)
       "2025-01-01T00:00:00.000Z"
       (FetchResponse 200
          (BodyJson (VObj [("answer", VObj [("sources", VArr [])])])))
       SourcesGenerator.initial)
  = VStr "No sources available for this topic. Please try a different search.".
Proof.
  split; [reflexivity | ].
  exact (proj2 (sources_reads_success_body 200
                  [("answer", VObj [("sources", VArr [])])]
                  (SourcesGenerator.formData SourcesGenerator.initial)
                  "2025-01-01T00:00:00.000Z" SourcesGenerator.initial eq_refl)).
Defined.

(** X8. How HelloWorldGenerator reads a 2xx response: a truthy [answer] of
    the body is kept as the answer, as it came; any other body, one that
    is not an object or has no truthy [answer], gives the error [Invalid
    response format from server] and leaves the answer as it was. *)
Theorem hello_reads_success_body :
  forall (status : nat) (data : value) (s : HelloWorldGenerator.State),
    response_ok status = true ->
    let s' := HelloWorldGenerator.handleSubmit_settle
                (AxiosAnswered status data) s in
    HelloWorldGenerator.isLoading s' = false /\
    if truthy (get_opt data "answer") then
      HelloWorldGenerator.answer s' = get_opt data "answer" /\
      HelloWorldGenerator.error s' = HelloWorldGenerator.error s
    else
      HelloWorldGenerator.answer s' = HelloWorldGenerator.answer s /\
      HelloWorldGenerator.error s'
      = VStr "Invalid response format from server".
Proof.
  intros status data s Hok.
  unfold HelloWorldGenerator.handleSubmit_settle,
    HelloWorldGenerator.handleSubmit_try.
  simpl. rewrite Hok. simpl.
  destruct data as [ | | [] | r | t | items | props]; simpl;
    try (now repeat split).
  - destruct (negb (String.eqb r "0" || String.eqb r "NaN")); simpl;
      now repeat split.
  - destruct (is_empty t); simpl; now repeat split.
  - destruct (truthy (lookup "answer" props)); simpl; now repeat split.
Qed.

(** The X8 statement on a body that is a bare string. *)
Lemma hello_reads_success_body_witness :
  response_ok 200 = true /\
  HelloWorldGenerator.error
    (HelloWorldGenerator.handleSubmit_settle
       (AxiosAnswered 200 (VStr "<html>")) HelloWorldGenerator.initial)
  = VStr "Invalid response format from server".
Proof.
  split; [reflexivity | ].
  exact (proj2 (proj2 (hello_reads_success_body 200 (VStr "<html>")
                         HelloWorldGenerator.initial eq_refl))).
Defined.

(** X9. On the three pages that use [fetch], a response whose body is not
    JSON ends in the Error state whatever its status, a 200 included: the
    status is never looked at, the message is the one of the parser (or
    the page's fallback text when that is empty), and no result is kept on
    NewsSearcher and SourcesGenerator. *)
Theorem unparsable_body_is_an_error :
  forall (status : nat) (m : string),
    (forall s : NewsSearcher.State,
       let s' := NewsSearcher.handleSubmit_settle
                   (FetchResponse status (BodyNotJson m)) s in
       NewsSearcher.isLoading s' = false /\
       NewsSearcher.articles s' = VNull /\
       NewsSearcher.error s'
       = VStr (if is_empty m
               then "Failed to search articles. Please try again." else m)) /\
    (forall (f : SourcesGenerator.FormData) (now : string)
            (s : SourcesGenerator.State),
       let s' := SourcesGenerator.handleSubmit_settle f now
                   (FetchResponse status (BodyNotJson m)) s in
       SourcesGenerator.isLoading s' = false /\
       SourcesGenerator.sourcesData s' = VNull /\
       SourcesGenerator.error s'
       = VStr (if is_empty m
               then "Failed to generate sources. Please try again." else m)) /\
    (forall s : NewsAggregator.State,
       let s' := NewsAggregator.handleSubmit_settle
                   (FetchResponse status (BodyNotJson m)) s in
       NewsAggregator.isLoading s' = false /\
       NewsAggregator.data s' = NewsAggregator.data s /\
       NewsAggregator.error s'
       = VStr (if is_empty m then "Failed to fetch data" else m)).
Proof.
  intros status m.
  repeat split; simpl; unfold js_or; simpl; now destruct (is_empty m).
Qed.

(** ** What the encoders write *)

Lemma encodeURIComponent_unit_safe (c : ascii) :
  all_chars uri_safe
    (if uri_unreserved (nat_of_ascii c) then String c EmptyString
     else percent_utf8 (nat_of_ascii c)) = true.
Proof. destruct c as [[] [] [] [] [] [] [] []]; reflexivity. Qed.

Lemma encodeURIComponent_unit_decodes (c : ascii) (t : string) :
  percent_decode
    ((if uri_unreserved (nat_of_ascii c) then String c EmptyString
      else percent_utf8 (nat_of_ascii c)) ++ t)
  = String c (percent_decode t).
Proof. destruct c as [[] [] [] [] [] [] [] []]; reflexivity. Qed.

Lemma encodeURIComponent_safe (s : string) :
  all_chars uri_safe (encodeURIComponent s) = true.
Proof.
  induction s as [ | c s IH]; [reflexivity | ].
  cbn [encodeURIComponent]. rewrite all_chars_app, IH.
  now rewrite encodeURIComponent_unit_safe.
Qed.

Lemma encodeURIComponent_decodes (s : string) :
  percent_decode (encodeURIComponent s) = s.
Proof.
  induction s as [ | c s IH]; [reflexivity | ].
  cbn [encodeURIComponent].
  now rewrite encodeURIComponent_unit_decodes, IH.
Qed.

Lemma form_urlencode_unit_safe (c : ascii) :
  all_chars form_safe
    (let n := nat_of_ascii c in
     if is_alnum n || existsb (Nat.eqb n) [42; 45; 46; 95]
     then String c EmptyString
     else if (n =? 32)%nat then "+"
     else percent_utf8 n) = true.
Proof. destruct c as [[] [] [] [] [] [] [] []]; reflexivity. Qed.

Lemma form_urlencode_safe (s : string) :
  all_chars form_safe (form_urlencode s) = true.
Proof.
  induction s as [ | c s IH]; [reflexivity | ].
  pose proof (form_urlencode_unit_safe c) as Hc. cbv zeta in Hc.
  cbn [form_urlencode]. now rewrite all_chars_app, IH, Hc.
Qed.

Lemma json_escape_unit (c : ascii) (t : string) :
  let n := nat_of_ascii c in
  let unit :=
    if (n =? 34)%nat then "\" ++ dquote
    else if (n =? 92)%nat then "\\"
    else if (n =? 8)%nat then "\b"
    else if (n =? 12)%nat then "\f"
    else if (n =? 10)%nat then "\n"
    else if (n =? 13)%nat then "\r"
    else if (n =? 9)%nat then "\t"
    else if (n <? 32)%nat then
      "\u00" ++ String (hex_digit false (n / 16))
                  (String (hex_digit false (n mod 16)) EmptyString)
    else String c EmptyString in
  all_chars above_c0 unit = true /\
  json_unescape (unit ++ t) = String c (json_unescape t).
Proof. destruct c as [[] [] [] [] [] [] [] []]; split; reflexivity. Qed.

Lemma json_escape_above_c0 (s : string) :
  all_chars above_c0 (json_escape s) = true.
Proof.
  induction s as [ | c s IH]; [reflexivity | ].
  pose proof (proj1 (json_escape_unit c EmptyString)) as Hc. cbv zeta in Hc.
  cbn [json_escape]. now rewrite all_chars_app, IH, Hc.
Qed.

Lemma json_escape_reads_back (s : string) :
  json_unescape (json_escape s) = s.
Proof.
  induction s as [ | c s IH]; [reflexivity | ].
  pose proof (proj2 (json_escape_unit c (json_escape s))) as Hc.
  cbv zeta in Hc. cbn [json_escape]. now rewrite Hc, IH.
Qed.

(** X10. Whatever the topic, the URL NewsAggregator requests has exactly
    one question mark and one equals sign and no ampersand, hash or space:
    the topic is percent-encoded into a single [question] parameter and
    cannot add a parameter or a fragment of its own.  Reading the encoding
    back gives the topic, so two states send the same request exactly when
    they hold the same topic. *)
Theorem aggregator_url_carries_the_topic :
  (forall s : NewsAggregator.State,
     let url := req_url (snd (NewsAggregator.handleSubmit_begin s)) in
     count_char "?" url = 1 /\ count_char "=" url = 1 /\
     count_char "&" url = 0 /\ count_char "#" url = 0 /\
     count_char " " url = 0 /\
     percent_decode (drop 42 url)
     = NewsAggregator.topic (NewsAggregator.formData s)) /\
  (forall s1 s2 : NewsAggregator.State,
     snd (NewsAggregator.handleSubmit_begin s1)
     = snd (NewsAggregator.handleSubmit_begin s2) <->
     NewsAggregator.topic (NewsAggregator.formData s1)
     = NewsAggregator.topic (NewsAggregator.formData s2)).
Proof.
  split.
  - intros s. cbv zeta.
    cbn [NewsAggregator.handleSubmit_begin snd fetch_get req_url].
    pose proof (encodeURIComponent_safe
                  (NewsAggregator.topic (NewsAggregator.formData s))) as Hsafe.
    rewrite !count_char_app.
    rewrite (count_char_absent uri_safe "?" _ eq_refl Hsafe),
      (count_char_absent uri_safe "=" _ eq_refl Hsafe),
      (count_char_absent uri_safe "&" _ eq_refl Hsafe),
      (count_char_absent uri_safe "#" _ eq_refl Hsafe),
      (count_char_absent uri_safe " " _ eq_refl Hsafe).
    repeat (split; [reflexivity | ]).
    simpl. apply encodeURIComponent_decodes.
  - intros s1 s2. split.
    + cbn [NewsAggregator.handleSubmit_begin snd]. unfold fetch_get.
      intros [= H]. apply (f_equal percent_decode) in H.
      now rewrite !encodeURIComponent_decodes in H.
    + intros H. cbn [NewsAggregator.handleSubmit_begin snd]. now rewrite H.
Qed.

(** X11. Whatever the form holds, the URL NewsSearcher requests has exactly
    one question mark, three equals signs and two ampersands, and no hash
    or space: the three fields are form-encoded into the parameters [url],
    [query] and [method], in this order, and none of them can add a
    parameter of its own. *)
Theorem searcher_url_has_three_parameters :
  forall s : NewsSearcher.State,
    let url := req_url (snd (NewsSearcher.handleSubmit_begin s)) in
    url = "http://localhost:8000/search?url="
          ++ form_urlencode (NewsSearcher.url (NewsSearcher.formData s))
          ++ "&query="
          ++ form_urlencode (NewsSearcher.query (NewsSearcher.formData s))
          ++ "&method="
          ++ form_urlencode (NewsSearcher.method (NewsSearcher.formData s)) /\
    count_char "?" url = 1 /\ count_char "=" url = 3 /\
    count_char "&" url = 2 /\ count_char "#" url = 0 /\
    count_char " " url = 0.
Proof.
  intros s. cbv zeta.
  assert (E : req_url (snd (NewsSearcher.handleSubmit_begin s))
          = "http://localhost:8000/search?url="
          ++ form_urlencode (NewsSearcher.url (NewsSearcher.formData s))
          ++ "&query="
          ++ form_urlencode (NewsSearcher.query (NewsSearcher.formData s))
          ++ "&method="
          ++ form_urlencode (NewsSearcher.method (NewsSearcher.formData s))).
  { cbn [NewsSearcher.handleSubmit_begin snd fetch_get req_url].
    unfold URLSearchParams_toString. cbn [map join].
    change (form_urlencode "url") with "url".
    change (form_urlencode "query") with "query".
    change (form_urlencode "method") with "method".
    rewrite !app_assoc_string. reflexivity. }
  rewrite E. split; [reflexivity | ]. clear E.
  rewrite !count_char_app.
  repeat match goal with
         | |- context [count_char ?c (form_urlencode ?x)] =>
             rewrite (count_char_absent form_safe c (form_urlencode x)
                        eq_refl (form_urlencode_safe x))
         end.
  repeat split.
Qed.

Lemma JSON_stringify_question (q : string) :
  JSON_stringify [("question", q)]
  = ("{" ++ dquote ++ "question" ++ dquote ++ ":" ++ dquote)
    ++ json_escape q ++ (dquote ++ "}").
Proof.
  unfold JSON_stringify, json_quote. simpl.
  now rewrite !app_assoc_string.
Qed.

Lemma question_sent_equal (f1 f2 : SourcesGenerator.FormData) :
  question_sent f1 = question_sent f2 <->
  SourcesGenerator.topic f1 = SourcesGenerator.topic f2 \/
  (SourcesGenerator.topic f1 = EmptyString /\
   SourcesGenerator.topic f2 = "Show me general news sources") \/
  (SourcesGenerator.topic f2 = EmptyString /\
   SourcesGenerator.topic f1 = "Show me general news sources").
Proof.
  unfold question_sent, SourcesGenerator.topic_or.
  destruct (SourcesGenerator.topic f1) as [ | c1 r1],
           (SourcesGenerator.topic f2) as [ | c2 r2]; simpl.
  - split; [now left | reflexivity].
  - split.
    + intros <-. right. left. now split.
    + intros [H | [[_ H] | [H _]]]; congruence.
  - split.
    + intros ->. right. right. now split.
    + intros [H | [[H _] | [_ H]]]; congruence.
  - split; [now left | ].
    intros [H | [[H _] | [H _]]]; congruence.
Qed.

(** X12. The body SourcesGenerator posts is the text
    [{"question":"..."}] with the question escaped as [JSON.stringify]
    escapes it: no code unit of the body is below U+0020, so the body is
    one line without C0 control characters, and reading the escapes back
    gives the question that was sent.  Two states post the same request
    exactly when their topics are equal, or one topic is empty and the
    other is the default question [Show me general news sources]
    itself. *)
Theorem sources_body_carries_the_question :
  (forall s : SourcesGenerator.State,
     exists body,
       req_body (snd (SourcesGenerator.handleSubmit_begin s)) = Some body /\
       all_chars above_c0 body = true /\
       body = ("{" ++ dquote ++ "question" ++ dquote ++ ":" ++ dquote)
              ++ json_escape (question_sent (SourcesGenerator.formData s))
              ++ (dquote ++ "}") /\
       json_unescape
         (json_escape (question_sent (SourcesGenerator.formData s)))
       = question_sent (SourcesGenerator.formData s)) /\
  (forall s1 s2 : SourcesGenerator.State,
     let t1 := SourcesGenerator.topic (SourcesGenerator.formData s1) in
     let t2 := SourcesGenerator.topic (SourcesGenerator.formData s2) in
     snd (SourcesGenerator.handleSubmit_begin s1)
     = snd (SourcesGenerator.handleSubmit_begin s2) <->
     t1 = t2 \/
     (t1 = EmptyString /\ t2 = "Show me general news sources") \/
     (t2 = EmptyString /\ t1 = "Show me general news sources")).
Proof.
  split.
  - intros s. eexists. split; [reflexivity | ].
    fold (question_sent (SourcesGenerator.formData s)).
    rewrite JSON_stringify_question.
    split; [ | split; [reflexivity | apply json_escape_reads_back]].
    rewrite !all_chars_app, json_escape_above_c0. reflexivity.
  - intros s1 s2 t1 t2. subst t1 t2.
    rewrite <- question_sent_equal.
    cbn [SourcesGenerator.handleSubmit_begin snd].
    fold (question_sent (SourcesGenerator.formData s1)).
    fold (question_sent (SourcesGenerator.formData s2)).
    rewrite !JSON_stringify_question.
    split.
    + intros [= H]. apply app_inv_tail_string in H.
      apply (f_equal json_unescape) in H.
      now rewrite !json_escape_reads_back in H.
    + now intros ->.
Qed.

(** The X10 statement on two forms that differ in their language only. *)
Lemma aggregator_url_carries_the_topic_witness :
  let s1 := NewsAggregator.handleInputChange "topic" "a&b=c"
              NewsAggregator.initial in
  let s2 := NewsAggregator.handleInputChange "language" "fr" s1 in
  snd (NewsAggregator.handleSubmit_begin s1)
  = snd (NewsAggregator.handleSubmit_begin s2) /\
  req_url (snd (NewsAggregator.handleSubmit_begin s1))
  = "http://localhost:8003/coordinate?question=a%26b%3Dc" /\
  NewsAggregator.topic (NewsAggregator.formData s1)
  = NewsAggregator.topic (NewsAggregator.formData s2).
Proof.
  intros s1 s2.
  assert (H : snd (NewsAggregator.handleSubmit_begin s1)
              = snd (NewsAggregator.handleSubmit_begin s2)) by reflexivity.
  split; [exact H | ]. split; [reflexivity | ].
  exact (proj1 (proj2 aggregator_url_carries_the_topic s1 s2) H).
Defined.

(** The X12 statement on the empty topic and on the default question typed
    out. *)
Lemma sources_body_carries_the_question_witness :
  let s1 := SourcesGenerator.initial in
  let s2 := SourcesGenerator.handleInputChange "topic"
              "Show me general news sources" SourcesGenerator.initial in
  (SourcesGenerator.topic (SourcesGenerator.formData s1) = EmptyString /\
   SourcesGenerator.topic (SourcesGenerator.formData s2)
   = "Show me general news sources") /\
  SourcesGenerator.topic (SourcesGenerator.formData s1)
  <> SourcesGenerator.topic (SourcesGenerator.formData s2) /\
  snd (SourcesGenerator.handleSubmit_begin s1)
  = snd (SourcesGenerator.handleSubmit_begin s2).
Proof.
  intros s1 s2.
  assert (H : SourcesGenerator.topic (SourcesGenerator.formData s1)
              = EmptyString /\
              SourcesGenerator.topic (SourcesGenerator.formData s2)
              = "Show me general news sources") by (split; reflexivity).
  split; [exact H | ]. split; [discriminate | ].
  apply (proj2 (proj2 sources_body_carries_the_question s1 s2)).
  right. left. exact H.
Defined.

(** ** The question HelloWorldGenerator accepts *)

Lemma trimEnd_empty (s : string) :
  is_empty (trimEnd s) = all_chars is_white_space s.
Proof.
  induction s as [ | c s IH]; simpl; [reflexivity | ].
  rewrite <- IH.
  now destruct (is_white_space c), (is_empty (trimEnd s)).
Qed.

Lemma trimStart_white (s : string) :
  all_chars is_white_space (trimStart s) = all_chars is_white_space s.
Proof.
  induction s as [ | c s IH]; simpl; [reflexivity | ].
  destruct (is_white_space c) eqn:E; simpl; [exact IH | now rewrite E].
Qed.

(** X13. HelloWorldGenerator turns a submission down exactly when the
    question consists of white space only (the empty question included):
    then it sets [Please enter a question], keeps the answer and the
    loading flag as they are and sends nothing.  In every other case it
    sends the question, trimmed. *)
Theorem blank_question_is_turned_down :
  forall s : HelloWorldGenerator.State,
    if all_chars is_white_space (HelloWorldGenerator.question s) then
      HelloWorldGenerator.handleSubmit_begin s
      = (HelloWorldGenerator.setError (VStr "Please enter a question") s, None)
    else
      snd (HelloWorldGenerator.handleSubmit_begin s)
      = Some {| HelloWorldGenerator.get_url := "http://localhost:8002/ask";
                HelloWorldGenerator.get_params :=
                  [("question", trim (HelloWorldGenerator.question s))] |}.
Proof.
  intros s. unfold HelloWorldGenerator.handleSubmit_begin.
  assert (E : is_empty (trim (HelloWorldGenerator.question s))
              = all_chars is_white_space (HelloWorldGenerator.question s)).
  { unfold trim. now rewrite trimEnd_empty, trimStart_white. }
  rewrite E.
  now destruct (all_chars is_white_space (HelloWorldGenerator.question s)).
Qed.

(** ** What the cards show *)

Lemma take_length (n : nat) (s : string) : String.length (take n s) <= n.
Proof.
  revert s. induction n as [ | n IH]; intros [ | c s]; simpl; try lia.
  specialize (IH s). lia.
Qed.

Lemma or_default_not_empty (o : option string) (d : string) :
  is_empty d = false -> is_empty (or_default o d) = false.
Proof.
  intros Hd. destruct o as [s | ]; simpl; [ | exact Hd].
  now destruct (is_empty s) eqn:E.
Qed.

Lemma cut_length (f : string) :
  String.length (if (40 <? String.length f)%nat
                 then take 40 f ++ "..." else f) <= 43.
Proof.
  destruct (Nat.ltb_spec 40 (String.length f)) as [Hlong | Hshort]; [ | lia].
  rewrite string_length_app. pose proof (take_length 40 f) as H.
  change (String.length "...") with 3. lia.
Qed.

(** X14. The address a source card displays is cut to size: at most 40
    code units of the url, followed by three dots when something was cut,
    so never more than 43.  The scheme is not displayed, so the [http] and
    the [https] form of an address display alike, and a missing url
    displays nothing.  Both copies of [formatUrl] agree. *)
Theorem displayed_url_is_short :
  (forall (u : option string) (d : string),
     SourcesGenerator.formatUrl u = Some d -> String.length d <= 43) /\
  (forall s : string,
     SourcesGenerator.formatUrl (Some ("https://" ++ s))
     = SourcesGenerator.formatUrl (Some ("http://" ++ s))) /\
  (forall u : option string,
     SourcesGenerator.formatUrl u = None <-> u = None) /\
  (forall u : option string,
     NewsAggregator.formatUrl u = SourcesGenerator.formatUrl u).
Proof.
  split; [ | split; [ | split]].
  - intros [s | ] d; [ | discriminate].
    unfold SourcesGenerator.formatUrl. intros [= <-]. apply cut_length.
  - intros [ | c s]; reflexivity.
  - intros [s | ]; split; try discriminate; reflexivity.
  - reflexivity.
Qed.

(** The X14 statement on an address of 60 code units. *)
Lemma displayed_url_is_short_witness :
  let u := "https://www.example.org/a/very/long/path/to/some/news/item/" in
  SourcesGenerator.formatUrl (Some u)
  = Some "www.example.org/a/very/long/path/to/some..." /\
  String.length "www.example.org/a/very/long/path/to/some..." <= 43.
Proof.
  intros u.
  assert (H : SourcesGenerator.formatUrl (Some u)
              = Some "www.example.org/a/very/long/path/to/some...")
    by reflexivity.
  split; [exact H | ].
  exact (proj1 displayed_url_is_short (Some u) _ H).
Defined.

(** X15. The text of a source card, in reading order, is: the name, or
    [Unnamed Source] when the name is missing or empty; the description, or
    [No description available]; then either the displayed address followed
    by [Visit Source], or [Invalid or missing URL] alone.  The heading and
    the description are never empty.  Both copies of the card agree. *)
Theorem source_card_text :
  forall (P : Platform) (source : Source.t),
    texts (SourcesGenerator.SourceCard source)
    = ([or_default (Source.name source) "Unnamed Source";
        or_default (Source.description source) "No description available"]
       ++ (if SourcesGenerator.isValidUrl (Source.url source)
           then flat_map texts
                  (child (SourcesGenerator.formatUrl (Source.url source)))
                ++ ["Visit Source"]
           else ["Invalid or missing URL"]))%list /\
    is_empty (or_default (Source.name source) "Unnamed Source") = false /\
    is_empty (or_default (Source.description source)
                "No description available") = false /\
    NewsAggregator.SourceCard source = SourcesGenerator.SourceCard source.
Proof.
  intros P [name description url].
  split; [ | split; [ | split]].
  - unfold SourcesGenerator.SourceCard. simpl.
    destruct (SourcesGenerator.isValidUrl url); simpl; [ | reflexivity].
    now rewrite app_nil_r.
  - now apply or_default_not_empty.
  - now apply or_default_not_empty.
  - reflexivity.
Qed.

Lemma elements_child (tag : string) (o : option string) :
  flat_map (elements tag) (child o) = [].
Proof.
  destruct o as [s | ]; simpl; [ | reflexivity].
  now destruct (is_empty s).
Qed.

(** X16. An article card shows a picture exactly when the article has an
    [image_url] that is not empty, with the title as its alternative text,
    and has a paragraph for the authors exactly when the list of authors is
    there and not empty: four paragraphs without it, five with it.  The
    card of NewsSearcher, when it renders, is this very card. *)
Theorem article_card_picture_and_authors :
  forall (P : Platform) (a : Article.t),
    let card := NewsAggregator.ArticleCard a in
    elements "img" card
    = match Article.image_url a with
      | Some src =>
          if is_empty src then []
          else [[("src", src); ("alt", Article.title a)]]
      | None => []
      end /\
    length (elements "p" card)
    = match Article.authors a with
      | Some (_ :: _) => 5
      | _ => 4
      end /\
    (forall c, NewsSearcher.ArticleCard a = Ok c -> c = card).
Proof.
  intros P a card. subst card. split; [ | split].
  - unfold NewsAggregator.ArticleCard.
    destruct a as [title summary image category date authors domain url].
    simpl.
    destruct (is_empty title), (is_empty category), (is_empty domain);
      (destruct image as [src | ]; [destruct (is_empty src) | ]);
      (destruct authors as [names | ];
       [destruct (0 <? length names)%nat;
        [destruct (is_empty (join ", " names)) | ] | ]);
      reflexivity.
  - unfold NewsAggregator.ArticleCard.
    destruct a as [title summary image category date authors domain url].
    cbn -[child join].
    destruct image as [src | ]; [destruct (is_empty src) | ];
      destruct authors as [[ | n names] | ];
      cbn -[child join];
      rewrite ?flat_map_app, ?elements_child, ?List.length_app;
      cbn -[child join]; rewrite ?elements_child; reflexivity.
  - intros c Hc.
    destruct (Article.authors a) as [names | ] eqn:E.
    + rewrite (searcher_card_is_aggregator_card a names E) in Hc.
      now injection Hc as <-.
    + unfold NewsSearcher.ArticleCard in Hc. rewrite E in Hc. discriminate.
Qed.

(** The X16 statement on an article with a picture and two authors. *)
Lemma article_card_picture_and_authors_witness :
  exists c,
    @NewsSearcher.ArticleCard sample_platform illustrated_article = Ok c /\
    elements "img" c
    = [[("src", "https://example.org/rain.png"); ("alt", "Rain")]] /\
    length (elements "p" c) = 5.
Proof.
  pose proof (article_card_picture_and_authors sample_platform
                illustrated_article) as (Himg & Hp & Hsame).
  destruct (@NewsSearcher.ArticleCard sample_platform illustrated_article)
    as [c | e] eqn:Hc; [ | discriminate].
  exists c. split; [reflexivity | ].
  rewrite (Hsame c eq_refl). split; [exact Himg | exact Hp].
Defined.

(** ** More on what the server may answer *)

(** X17. NewsAggregator checks nothing of a 2xx body: whatever the parsed
    body is, an object, an array, a number, [null], it becomes the data of
    the page as it came, the error is left as it was and loading ends.  A
    body of [null] therefore leaves the page with nothing to show. *)
Theorem aggregator_keeps_any_body :
  forall (status : nat) (body : value) (s : NewsAggregator.State),
    response_ok status = true ->
    let s' := NewsAggregator.handleSubmit_settle
                (FetchResponse status (BodyJson body)) s in
    NewsAggregator.data s' = body /\
    NewsAggregator.error s' = NewsAggregator.error s /\
    NewsAggregator.isLoading s' = false /\
    NewsAggregator.formData s' = NewsAggregator.formData s.
Proof.
  intros status body s Hok.
  unfold NewsAggregator.handleSubmit_settle, NewsAggregator.handleSubmit_try.
  simpl. rewrite Hok. now repeat split.
Qed.

(** The X17 statement on a body that is a bare number. *)
Lemma aggregator_keeps_any_body_witness :
  response_ok 200 = true /\
  NewsAggregator.data
    (NewsAggregator.handleSubmit_settle
       (FetchResponse 200 (BodyJson (VNum "7"))) NewsAggregator.initial)
  = VNum "7".
Proof.
  split; [reflexivity | ].
  exact (proj1 (aggregator_keeps_any_body 200 (VNum "7")
                  NewsAggregator.initial eq_refl)).
Defined.

Lemma js_or_text (m fallback : string) :
  js_or (VStr m) (VStr fallback) = VStr (if is_empty m then fallback else m).
Proof. unfold js_or. simpl. now destruct (is_empty m). Qed.

(** X18. When the [error] of a non-2xx body is truthy but not a string, the
    pages part ways.  HelloWorldGenerator keeps the value itself as its
    error.  The pages that use [fetch] pass it to [new Error], so they show
    the text ToString gives it: the elements joined by commas for an array,
    [[object Object]] for an object, and, for an object that has a key
    [toString] of its own, the text of the [TypeError] that the conversion
    throws inside the [try].  When that text is empty, as it is for an
    empty array, they show their own fallback text. *)
Theorem structured_error_is_flattened :
  forall (status : nat) (props : list (string * value)),
    response_ok status = false ->
    truthy (lookup "error" props) = true ->
    let X := lookup "error" props in
    let text := match ToString X with
                | Ok t => t
                | Throw e => error_message e
                end in
    (forall s : HelloWorldGenerator.State,
       HelloWorldGenerator.error
         (HelloWorldGenerator.handleSubmit_settle
            (AxiosAnswered status (VObj props)) s) = X) /\
    (forall s : NewsSearcher.State,
       NewsSearcher.error
         (NewsSearcher.handleSubmit_settle
            (FetchResponse status (BodyJson (VObj props))) s)
       = VStr (if is_empty text
               then "Failed to search articles. Please try again."
               else text)) /\
    (forall (f : SourcesGenerator.FormData) (now : string)
            (s : SourcesGenerator.State),
       SourcesGenerator.error
         (SourcesGenerator.handleSubmit_settle f now
            (FetchResponse status (BodyJson (VObj props))) s)
       = VStr (if is_empty text
               then "Failed to generate sources. Please try again."
               else text)) /\
    (forall s : NewsAggregator.State,
       NewsAggregator.error
         (NewsAggregator.handleSubmit_settle
            (FetchResponse status (BodyJson (VObj props))) s)
       = VStr (if is_empty text then "Failed to fetch data" else text)) /\
    (forall fields : list (string * value),
       X = VObj fields ->
       text = if has_key "toString" fields
              then "Cannot convert object to primitive value"
              else "[object Object]").
Proof.
  intros status props Hst HX X text. subst X text.
  split; [ | split; [ | split; [ | split]]]; intros.
  - unfold HelloWorldGenerator.handleSubmit_settle,
      HelloWorldGenerator.handleSubmit_try.
    simpl. rewrite Hst. simpl. unfold js_or. now rewrite HX.
  - unfold NewsSearcher.handleSubmit_settle, NewsSearcher.handleSubmit_try.
    cbn [await_fetch await_json bind fst snd]. rewrite Hst.
    cbn [negb get bind]. unfold js_or at 1. rewrite HX. unfold new_Error.
    destruct (ToString (lookup "error" props)) as [t | e];
      cbn [bind NewsSearcher.handleSubmit_catch error_message];
      simpl; apply js_or_text.
  - unfold SourcesGenerator.handleSubmit_settle,
      SourcesGenerator.handleSubmit_try.
    cbn [await_fetch await_json bind fst snd]. rewrite Hst.
    cbn [negb get bind]. unfold js_or at 1. rewrite HX. unfold new_Error.
    destruct (ToString (lookup "error" props)) as [t | e];
      cbn [bind SourcesGenerator.handleSubmit_catch error_message];
      simpl; apply js_or_text.
  - unfold NewsAggregator.handleSubmit_settle, NewsAggregator.handleSubmit_try.
    cbn [await_fetch await_json bind fst snd]. rewrite Hst.
    cbn [negb get bind]. unfold js_or at 1. rewrite HX. unfold new_Error.
    destruct (ToString (lookup "error" props)) as [t | e];
      cbn [bind NewsAggregator.handleSubmit_catch error_message];
      simpl; apply js_or_text.
  - rewrite H. simpl. now destruct (has_key "toString" fields).
Qed.

(** The X18 statement on an error that is an object, on one that is an
    object with a key [toString], and on one that is an empty array. *)
Lemma structured_error_is_flattened_witness :
  let detail := [("error", VObj [("code", VNum "7")])] in
  let shadowed := [("error", VObj [("toString", VNum "1")])] in
  let nothing := [("error", VArr [])] in
  (response_ok 500 = false /\ truthy (lookup "error" detail) = true /\
   truthy (lookup "error" shadowed) = true /\
   truthy (lookup "error" nothing) = true) /\
  HelloWorldGenerator.error
    (HelloWorldGenerator.handleSubmit_settle
       (AxiosAnswered 500 (VObj detail)) HelloWorldGenerator.initial)
  = VObj [("code", VNum "7")] /\
  NewsSearcher.error
    (NewsSearcher.handleSubmit_settle
       (FetchResponse 500 (BodyJson (VObj detail))) NewsSearcher.initial)
  = VStr "[object Object]" /\
  NewsSearcher.error
    (NewsSearcher.handleSubmit_settle
       (FetchResponse 500 (BodyJson (VObj shadowed))) NewsSearcher.initial)
  = VStr "Cannot convert object to primitive value" /\
  NewsSearcher.error
    (NewsSearcher.handleSubmit_settle
       (FetchResponse 500 (BodyJson (VObj nothing))) NewsSearcher.initial)
  = VStr "Failed to search articles. Please try again.".
Proof.
  intros detail shadowed nothing. split; [repeat split | ].
  pose proof (structured_error_is_flattened 500 detail eq_refl eq_refl)
    as (Hh & Hn & _).
  pose proof (structured_error_is_flattened 500 shadowed eq_refl eq_refl)
    as (_ & Hs & _).
  pose proof (structured_error_is_flattened 500 nothing eq_refl eq_refl)
    as (_ & Hn' & _).
  split; [exact (Hh HelloWorldGenerator.initial) | ].
  split; [exact (Hn NewsSearcher.initial) | ].
  split; [exact (Hs NewsSearcher.initial) | exact (Hn' NewsSearcher.initial)].
Defined.

(** ** C5: empty required fields *)

(** The request a press on the submit control sends, if it sends one, is
    the request the page event sends, and a press that sends none sends
    none as an event. *)
Lemma press_submit_is_the_event :
  (forall p : NewsSearcher.Page,
     match NewsSearcher_press_submit p with
     | ControlDisabled => NewsSearcher.on_event NewsSearcher.SubmitForm p = None
     | FieldRequired _ | Rejected _ =>
         NewsSearcher.on_event NewsSearcher.SubmitForm p = Some p
     | Dispatched r =>
         exists p',
           NewsSearcher.on_event NewsSearcher.SubmitForm p = Some p' /\
           NewsSearcher.sent p' = (NewsSearcher.sent p ++ [r])%list
     end) /\
  (forall p : NewsAggregator.Page,
     match NewsAggregator_press_submit p with
     | ControlDisabled =>
         NewsAggregator.on_event NewsAggregator.SubmitForm p = None
     | FieldRequired _ | Rejected _ =>
         NewsAggregator.on_event NewsAggregator.SubmitForm p = Some p
     | Dispatched r =>
         exists p',
           NewsAggregator.on_event NewsAggregator.SubmitForm p = Some p' /\
           NewsAggregator.sent p' = (NewsAggregator.sent p ++ [r])%list
     end) /\
  (forall p : HelloWorldGenerator.Page,
     match HelloWorldGenerator_press_submit p with
     | ControlDisabled =>
         HelloWorldGenerator.on_event HelloWorldGenerator.SubmitForm p = None
     | FieldRequired _ => False
     | Rejected m =>
         exists p',
           HelloWorldGenerator.on_event HelloWorldGenerator.SubmitForm p
           = Some p' /\
           HelloWorldGenerator.sent p' = HelloWorldGenerator.sent p /\
           HelloWorldGenerator.pending p' = HelloWorldGenerator.pending p /\
           HelloWorldGenerator.error (HelloWorldGenerator.state p') = m
     | Dispatched r =>
         exists p',
           HelloWorldGenerator.on_event HelloWorldGenerator.SubmitForm p
           = Some p' /\
           HelloWorldGenerator.sent p'
           = (HelloWorldGenerator.sent p ++ [r])%list
     end).
Proof.
  split; [ | split].
  - intros [s n sent].
    unfold NewsSearcher_press_submit, NewsSearcher.on_event,
      NewsSearcher.required_filled.
    cbn [NewsSearcher.state NewsSearcher.sent NewsSearcher.pending].
    destruct (NewsSearcher.isLoading s); [reflexivity | ].
    destruct (is_empty (NewsSearcher.url (NewsSearcher.formData s)));
      [reflexivity | ].
    destruct (is_empty (NewsSearcher.query (NewsSearcher.formData s)));
      [reflexivity | ].
    eexists. split; reflexivity.
  - intros [s n sent].
    unfold NewsAggregator_press_submit, NewsAggregator.on_event,
      NewsAggregator.required_filled.
    cbn [NewsAggregator.state NewsAggregator.sent NewsAggregator.pending].
    destruct (NewsAggregator.isLoading s); [reflexivity | ].
    destruct (is_empty (NewsAggregator.topic (NewsAggregator.formData s)));
      [reflexivity | ].
    eexists. split; reflexivity.
  - intros [s n sent].
    unfold HelloWorldGenerator_press_submit, HelloWorldGenerator.on_event.
    cbn [HelloWorldGenerator.state HelloWorldGenerator.sent
         HelloWorldGenerator.pending].
    destruct (HelloWorldGenerator.isLoading s
              || is_empty (HelloWorldGenerator.question s)); [reflexivity | ].
    destruct (HelloWorldGenerator.handleSubmit_begin s) as [s' [r | ]];
      eexists; repeat split.
Qed.




